(** * bgg-what-to-play: filter state, ratings criterion, reducer and pipeline

    A shallow embedding of

      - [src/services/filter-sort-services/ratingsService.ts]
      - [src/services/filter-sort-services/useCollectionFilters.ts]
      - [src/components/SearchFilterForm/PlayerCountSlider.tsx]

    JavaScript numbers are IEEE 754 binary64 values; they are modelled by
    Rocq's primitive [float], which is the same format, so that [NaN],
    the infinities, comparisons and arithmetic are those of the program.
    Strings are sequences of code units below 256. *)

From Stdlib Require Import ZArith List String Ascii Bool Lia.
From Stdlib Require Import Floats.
From Stdlib Require Import Sorting.Permutation Sorting.Sorted.
Import ListNotations.

Local Open Scope bool_scope.

(** ** JavaScript numbers *)

Module Js.

Definition number := float.

(** Relational operators. [a >= b] and [a > b] are [b <= a] and [b < a]
    in IEEE arithmetic, [NaN] included. *)
Definition le (a b : number) : bool := PrimFloat.leb a b.
Definition lt (a b : number) : bool := PrimFloat.ltb a b.
Definition ge (a b : number) : bool := PrimFloat.leb b a.
Definition gt (a b : number) : bool := PrimFloat.ltb b a.

(** [a === b] and [a !== b] on numbers. *)
Definition strict_eq (a b : number) : bool := PrimFloat.eqb a b.
Definition strict_neq (a b : number) : bool := negb (PrimFloat.eqb a b).

(** [isNaN(x)] and [Number.isNaN(x)] agree on numbers. *)
Definition isNaN (x : number) : bool := PrimFloat.is_nan x.

Definition POSITIVE_INFINITY : number := PrimFloat.infinity.

(** lodash [_.clamp(number, lower, upper)] with numeric bounds: [baseClamp]
    leaves [NaN] alone, first caps by [upper], then raises to [lower]. *)
Definition clamp (n lower upper : number) : number :=
  if strict_eq n n then
    let n1 := if le n upper then n else upper in
    if ge n1 lower then n1 else lower
  else n.

(** *** Strings *)

(** [s.includes(c)] for a one-character needle. *)
Fixpoint includes (c : ascii) (s : string) : bool :=
  match s with
  | EmptyString => false
  | String d r => Ascii.eqb d c || includes c r
  end.

(** [s.split(c)] for a one-character separator: always at least one
    piece. *)
Fixpoint split (c : ascii) (s : string) : list string :=
  match s with
  | EmptyString => [EmptyString]
  | String d r =>
      if Ascii.eqb d c then EmptyString :: split c r
      else match split c r with
           | [] => [String d EmptyString]
           | p :: ps => String d p :: ps
           end
  end.

(** *** [parseFloat] *)

(** White space and line terminators that [parseFloat] skips, among the
    code units below 256: TAB, LF, VT, FF, CR, SP and NBSP. *)
Definition is_white_space (c : ascii) : bool :=
  let n := N_of_ascii c in
  ((9 <=? n) && (n <=? 13) || (n =? 32) || (n =? 160))%N.

Fixpoint trim_start (s : string) : string :=
  match s with
  | String c r => if is_white_space c then trim_start r else s
  | EmptyString => s
  end.

Definition digit_of (c : ascii) : option Z :=
  let n := N_of_ascii c in
  if ((48 <=? n) && (n <=? 57))%N then Some (Z.of_N n - 48)%Z else None.

(** Reads the longest run of decimal digits at the front of [s], pushing
    them onto the accumulated value [acc]; returns the value, the number
    of digits read and the rest. *)
Fixpoint take_digits (acc : Z) (count : Z) (s : string) : Z * Z * string :=
  match s with
  | String c r =>
      match digit_of c with
      | Some d => take_digits (10 * acc + d)%Z (count + 1)%Z r
      | None => (acc, count, s)
      end
  | EmptyString => (acc, count, s)
  end.

(** The [ExponentPart] of a [StrDecimalLiteral], when a complete one is
    present at the front of [s]; otherwise the exponent is [0]. *)
Definition exponent_part (s : string) : Z :=
  match s with
  | String c r =>
      if Ascii.eqb c "e" || Ascii.eqb c "E" then
        let '(neg, r') :=
          match r with
          | String "-" r' => (true, r')
          | String "+" r' => (false, r')
          | _ => (false, r)
          end in
        let '(v, n, _) := take_digits 0 0 r' in
        if (n =? 0)%Z then 0%Z else if neg then (- v)%Z else v
      else 0%Z
  | EmptyString => 0%Z
  end.

(** The binary64 value nearest to [m * 10 ^ e10] (ties to even), with the
    sign [neg]. *)
Definition decimal_to_number (neg : bool) (m e10 : Z) : number :=
  match m with
  | Zpos p =>
      SF2Prim
        (if (0 <=? e10)%Z
         then binary_normalize prec emax
                (cond_Zopp neg (m * 10 ^ e10)%Z) 0 false
         else SFdiv prec emax
                (S754_finite neg p 0)
                (S754_finite false (Z.to_pos (10 ^ (- e10))) 0))
  | _ => if neg then PrimFloat.neg_zero else PrimFloat.zero
  end.

Definition starts_with_Infinity (s : string) : bool :=
  String.prefix "Infinity" s.

(** [parseFloat(s)]: skip leading white space, read the longest prefix that
    is a [StrDecimalLiteral], [NaN] when there is none. *)
Definition parseFloat (s : string) : number :=
  let t := trim_start s in
  let '(neg, u) :=
    match t with
    | String "-" r => (true, r)
    | String "+" r => (false, r)
    | _ => (false, t)
    end in
  if starts_with_Infinity u then
    (if neg then PrimFloat.neg_infinity else PrimFloat.infinity)
  else
    let '(ip, ni, r1) := take_digits 0 0 u in
    let '(m, nf, r2) :=
      match r1 with
      | String "." r =>
          let '(m, nf, r2) := take_digits ip 0 r in
          if (ni =? 0)%Z && (nf =? 0)%Z then (ip, 0%Z, r1) else (m, nf, r2)
      | _ => (ip, 0%Z, r1)
      end in
    if (ni =? 0)%Z && (nf =? 0)%Z then PrimFloat.nan
    else decimal_to_number neg m (exponent_part r2 - nf).

End Js.

(** ** Data model *)

(** A range value [[min, max]]. *)
Definition Range : Type := (Js.number * Js.number)%type.

(** The ratings mode of the filter state. *)
Inductive ShowRatings := NO_RATING | AVERAGE_RATING | USER_RATING.

Definition ShowRatings_eqb (a b : ShowRatings) : bool :=
  match a, b with
  | NO_RATING, NO_RATING | AVERAGE_RATING, AVERAGE_RATING
  | USER_RATING, USER_RATING => true
  | _, _ => false
  end.

(** [CollectionFilterState], the type of [initialFilterState]. *)
Record CollectionFilterState := mkFilterState {
  username : string;
  showInvalidPlayerCount : bool;
  playerCountRange : Range;
  playtimeRange : Range;
  complexityRange : Range;
  showExpansions : bool;
  showRatings : ShowRatings;
  ratingsRange : Range;
  showNotRecommended : bool;
  isDebug : bool
}.

(** A value that is a number or a string, such as [userRating], which is a
    number or ["N/A"]. *)
Inductive NumberOrString :=
| Num (x : Js.number)
| Str (s : string).

(** One entry of the player-count poll of a game. *)
Record PollEntry := mkPollEntry {
  numplayers : NumberOrString;
  playerCountValue : Js.number;
  sortScore : Js.number;
  NotRecommendedPercent : Js.number
}.

(** A poll entry after [addIsPlayerCountWithinRange]: every field of the
    entry, and the flag. *)
Record AnnotatedPollEntry := mkAnnotated {
  entry :> PollEntry;
  isPlayerCountWithinRange : bool
}.

(** A game of the collection, over the type of its poll entries:
    [SimpleBoardGame] before annotation, [BoardGame] after. *)
Record Game (R : Type) := mkGame {
  id : Z;
  name : string;
  type : string;
  thumbnail : string;
  minPlayers : Js.number;
  maxPlayers : Js.number;
  minPlaytime : Js.number;
  maxPlaytime : Js.number;
  averageWeight : Js.number;
  userRating : NumberOrString;
  averageRating : Js.number;
  recommendedPlayerCount : list R
}.

Arguments mkGame {R}.
Arguments id {R}.
Arguments name {R}.
Arguments type {R}.
Arguments thumbnail {R}.
Arguments minPlayers {R}.
Arguments maxPlayers {R}.
Arguments minPlaytime {R}.
Arguments maxPlaytime {R}.
Arguments averageWeight {R}.
Arguments userRating {R}.
Arguments averageRating {R}.
Arguments recommendedPlayerCount {R}.

Definition SimpleBoardGame := Game PollEntry.
Definition BoardGame := Game AnnotatedPollEntry.

(** [{ ...game, recommendedPlayerCount: recs }] *)
Definition with_recommendedPlayerCount {R S : Type}
  (game : Game R) (recs : list S) : Game S :=
  mkGame (id game) (name game) (type game) (thumbnail game)
    (minPlayers game) (maxPlayers game) (minPlaytime game) (maxPlaytime game)
    (averageWeight game) (userRating game) (averageRating game) recs.

(** The query string of the page, [URLSearchParams]: an ordered list of
    key and value pairs. *)
Definition URLSearchParams : Type := list (string * string).

(** ** slider-utils *)

Module SliderUtils.

(** Modelled from the spec: [isBoardGameRangeWithinFilterRange] of
    [slider-utils], which is not among the sources. The spec (4.2) gives
    the membership test as interval overlap between the game's own
    [[min, max]] and the active filter range; on a one-point interval
    [[v, v]] that is "the single value lies in [[min, max]]". *)
Definition isBoardGameRangeWithinFilterRange
  (boardgameRange filterRange : Range) : bool :=
  let '(minFilterRange, maxFilterRange) := filterRange in
  let '(minBoardGameRange, maxBoardGameRange) := boardgameRange in
  Js.le minFilterRange maxBoardGameRange
  && Js.le minBoardGameRange maxFilterRange.

End SliderUtils.

(** ** ratingsService.ts *)

Module RatingsService.

Definition QUERY_PARAM_RATINGS : string := "ratings".
Definition DEFAULT_RATINGS_MIN : Js.number := 1%float.
Definition DEFAULT_RATINGS_MAX : Js.number := 10%float.
Definition DEFAULT_RANGE : Range := (DEFAULT_RATINGS_MIN, DEFAULT_RATINGS_MAX).

(** [convertRangeQueryParamToValue(value)], [value] a string or [null].
    [!value] holds for [null] and for the empty string. The array
    destructuring takes the first two pieces of the split; a piece that is
    missing is [undefined], which [parseFloat] turns into [NaN], as it does
    the empty string. *)
Definition convertRangeQueryParamToValue (value : option string) : Range :=
  match value with
  | None | Some EmptyString => DEFAULT_RANGE
  | Some value =>
      let normalizedValue :=
        if Js.includes "-" value then value
        else (value ++ "-" ++ value)%string in
      let parts := Js.split "-" normalizedValue in
      let minRangeStr := nth 0 parts EmptyString in
      let maxRangeStr := nth 1 parts EmptyString in
      let parsedMinRange := Js.parseFloat minRangeStr in
      let minRange :=
        if Js.isNaN parsedMinRange then DEFAULT_RATINGS_MIN
        else Js.clamp parsedMinRange DEFAULT_RATINGS_MIN DEFAULT_RATINGS_MAX in
      let parsedMaxRange := Js.parseFloat maxRangeStr in
      let maxRange :=
        if Js.isNaN parsedMaxRange then DEFAULT_RATINGS_MAX
        else Js.clamp parsedMaxRange DEFAULT_RATINGS_MIN DEFAULT_RATINGS_MAX in
      (minRange, maxRange)
  end.

Section Ambient.

(** [getQueryParamValue] of [slider-utils] reads the persisted store of the
    page; what it returns for a key is a string or [null]. *)
Variable getQueryParamValue : string -> option string.

Definition getInitialState : Range :=
  convertRangeQueryParamToValue (getQueryParamValue QUERY_PARAM_RATINGS).

End Ambient.

(** [getReducedState(state, payload)]: [{ ...state, ratingsRange }]. *)
Definition getReducedState (state : CollectionFilterState) (payload : Range)
  : CollectionFilterState :=
  let '(minRange, maxRange) := payload in
  let ratingsRange' := (minRange, maxRange) in
  {| username := username state;
     showInvalidPlayerCount := showInvalidPlayerCount state;
     playerCountRange := playerCountRange state;
     playtimeRange := playtimeRange state;
     complexityRange := complexityRange state;
     showExpansions := showExpansions state;
     showRatings := showRatings state;
     ratingsRange := ratingsRange';
     showNotRecommended := showNotRecommended state;
     isDebug := isDebug state |}.

Section SetQueryParam.

(** [maybeSetQueryParam(searchParams, value, defaultValue, key)] of
    [slider-utils] is not among the sources; it updates [searchParams] in
    place, which is written here as returning the updated parameters. *)
Variable sliderMaybeSetQueryParam :
  URLSearchParams -> Range -> Range -> string -> URLSearchParams.

Definition setQueryParam (searchParams : URLSearchParams)
  (state : CollectionFilterState) : URLSearchParams :=
  sliderMaybeSetQueryParam searchParams (ratingsRange state) DEFAULT_RANGE
    QUERY_PARAM_RATINGS.

End SetQueryParam.

Definition getLabelByFilter (filterState : CollectionFilterState) : string :=
  if ShowRatings_eqb (showRatings filterState) USER_RATING
  then "User Ratings" else "Average Ratings".

(** [isWithinRange(filterState)(game)]. [typeof v === "number"] holds
    exactly for the numbers, [NaN] included. *)
Definition isWithinRange {R : Type} (filterState : CollectionFilterState)
  (game : Game R) : bool :=
  let userOrAverageRating :=
    if ShowRatings_eqb (showRatings filterState) USER_RATING
    then userRating game
    else Num (averageRating game) in
  let rating :=
    match userOrAverageRating with
    | Num x => x
    | Str _ => DEFAULT_RATINGS_MIN
    end in
  SliderUtils.isBoardGameRangeWithinFilterRange
    (rating, rating) (ratingsRange filterState).

(** [getAriaLabel(filterState)(index)] *)
Definition getAriaLabel (filterState : CollectionFilterState)
  (index : Js.number) : string :=
  if Js.strict_eq index 0%float
  then ("Minimum " ++ getLabelByFilter filterState)%string
  else ("Maximum " ++ getLabelByFilter filterState)%string.

(** [getSliderLabel(filterState)] *)
Definition getSliderLabel (filterState : CollectionFilterState) : string :=
  ("Filter by " ++ getLabelByFilter filterState)%string.

End RatingsService.

(** ** The browser: location, history and console *)

(** The part of the page that [maybeSetQueryParam] reads and writes: the
    query string of [document.location] and the entries of [history], oldest
    first. *)
Record Browser := mkBrowser {
  location : URLSearchParams;
  history : list URLSearchParams
}.

(** [history.pushState] with the URL [url] adds an entry for [url] and makes it
    the location. *)
Definition pushState (url : URLSearchParams) (b : Browser) : Browser :=
  {| location := url; history := history b ++ [url] |}.

(** One [console.groupCollapsed(label); console.table(rows);
    console.groupEnd()] of the debug output. *)
Definition ConsoleGroup : Type := (string * list (Z * string))%type.

(** [Array.prototype.sort(comparefn)] is a stable sort: an element moves
    behind another one only where [comparefn] is positive on them. It is
    written as the stable insertion sort; every stable sort gives this
    result when [comparefn] is a consistent comparator. *)
Section ArraySort.

Context {A : Type}.
Variable comparefn : A -> A -> Js.number.

Fixpoint sort_insert (x : A) (l : list A) : list A :=
  match l with
  | [] => [x]
  | y :: l' =>
      if Js.gt (comparefn x y) 0%float then y :: sort_insert x l'
      else x :: y :: l'
  end.

Fixpoint array_sort (l : list A) : list A :=
  match l with
  | [] => []
  | x :: l' => sort_insert x (array_sort l')
  end.

End ArraySort.

(** ** useCollectionFilters.ts *)

Module CollectionFilters.

Module QUERY_PARAMS.
Definition SHOW_INVALID_PLAYER_COUNT : string := "showInvalid".
Definition SHOW_EXPANSIONS : string := "showExpansions".
Definition SHOW_USER_RATINGS : string := "showUserRatings".
Definition SHOW_AVERAGE_RATINGS : string := "showRatings".
Definition SHOW_NOT_RECOMMENDED : string := "showNotRec".
Definition IS_DEBUG : string := "debug".
End QUERY_PARAMS.

Definition ActionHandler (T : Type) : Type :=
  CollectionFilterState -> T -> CollectionFilterState.

(** The action of the reducer: one tag per key of [actions], with the
    payload of its handler. *)
Inductive Action :=
| SET_COMPLEXITY (payload : Range)
| SET_PLAYER_COUNT_RANGE (payload : Range)
| SET_PLAYTIME_RANGE (payload : Range)
| SET_USERNAME (payload : string)
| TOGGLE_SHOW_RATINGS
| SET_SHOW_RATINGS (payload : ShowRatings)
| SET_RATINGS (payload : Range)
| TOGGLE_SHOW_EXPANSIONS
| TOGGLE_SHOW_INVALID_PLAYER_COUNT
| TOGGLE_SHOW_NOT_RECOMMENDED_PLAYER_COUNT.

(** The controls whose modules are not among the sources: what the reducer
    and [maybeSetQueryParam] take from them. A [setQueryParam] updates the
    search parameters it is given in place, written as returning them. *)
Record Controls := mkControls {
  complexity_getReducedState : ActionHandler Range;
  playerCount_getReducedState : ActionHandler Range;
  playtime_getReducedState : ActionHandler Range;
  username_getReducedState : ActionHandler string;
  showRatings_getToggleShowRatings : ActionHandler unit;
  showRatings_getReducedState : ActionHandler ShowRatings;
  boolean_getReducedState : string -> ActionHandler unit;
  username_setQueryParam :
    URLSearchParams -> CollectionFilterState -> URLSearchParams;
  playerCount_setQueryParam :
    URLSearchParams -> CollectionFilterState -> URLSearchParams;
  playtime_setQueryParam :
    URLSearchParams -> CollectionFilterState -> URLSearchParams;
  complexity_setQueryParam :
    URLSearchParams -> CollectionFilterState -> URLSearchParams;
  sliderMaybeSetQueryParam :
    URLSearchParams -> Range -> Range -> string -> URLSearchParams;
  showRatings_setQueryParam :
    URLSearchParams -> CollectionFilterState -> URLSearchParams;
  boolean_setQueryParam :
    URLSearchParams -> string -> bool -> URLSearchParams
}.

Section Reducer.

Variable controls : Controls.

(** [actions[action.type](state, action.payload)] *)
Definition actions (state : CollectionFilterState) (action : Action)
  : CollectionFilterState :=
  match action with
  | SET_COMPLEXITY p => complexity_getReducedState controls state p
  | SET_PLAYER_COUNT_RANGE p => playerCount_getReducedState controls state p
  | SET_PLAYTIME_RANGE p => playtime_getReducedState controls state p
  | SET_USERNAME p => username_getReducedState controls state p
  | TOGGLE_SHOW_RATINGS => showRatings_getToggleShowRatings controls state tt
  | SET_SHOW_RATINGS p => showRatings_getReducedState controls state p
  | SET_RATINGS p => RatingsService.getReducedState state p
  | TOGGLE_SHOW_EXPANSIONS =>
      boolean_getReducedState controls "showExpansions" state tt
  | TOGGLE_SHOW_INVALID_PLAYER_COUNT =>
      boolean_getReducedState controls "showInvalidPlayerCount" state tt
  | TOGGLE_SHOW_NOT_RECOMMENDED_PLAYER_COUNT =>
      boolean_getReducedState controls "showNotRecommended" state tt
  end.

(** [maybeSetQueryParam(state)]: nothing when the username is empty;
    otherwise a copy of the location is updated by every control and pushed
    onto the history. *)
Definition maybeSetQueryParam (state : CollectionFilterState) (b : Browser)
  : Browser :=
  match username state with
  | EmptyString => b
  | _ =>
      let url := location b in
      let url := username_setQueryParam controls url state in
      let url := playerCount_setQueryParam controls url state in
      let url := playtime_setQueryParam controls url state in
      let url := complexity_setQueryParam controls url state in
      let url :=
        RatingsService.setQueryParam (sliderMaybeSetQueryParam controls)
          url state in
      let url := showRatings_setQueryParam controls url state in
      let url :=
        boolean_setQueryParam controls url QUERY_PARAMS.SHOW_EXPANSIONS
          (showExpansions state) in
      let url :=
        boolean_setQueryParam controls url QUERY_PARAMS.SHOW_NOT_RECOMMENDED
          (showNotRecommended state) in
      let url :=
        boolean_setQueryParam controls url
          QUERY_PARAMS.SHOW_INVALID_PLAYER_COUNT
          (showInvalidPlayerCount state) in
      let url :=
        boolean_setQueryParam controls url QUERY_PARAMS.IS_DEBUG
          (isDebug state) in
      pushState url b
  end.

(** [reducer(state, action)]: the new state, and the browser after
    [maybeSetQueryParam(newState)]. *)
Definition reducer (state : CollectionFilterState) (action : Action)
  (b : Browser) : CollectionFilterState * Browser :=
  let newState := actions state action in
  (newState, maybeSetQueryParam newState b).

(** A sequence of dispatches, each on the state the one before returned. *)
Fixpoint dispatchAll (state : CollectionFilterState) (acts : list Action)
  (b : Browser) : CollectionFilterState * Browser :=
  match acts with
  | [] => (state, b)
  | a :: rest =>
      let '(state', b') := reducer state a b in
      dispatchAll state' rest b'
  end.

End Reducer.

(** *** The pipeline *)

(** A computation that also writes groups to the console. *)
Definition Logged (X : Type) : Type := (X * list ConsoleGroup)%type.

Definition ret {X : Type} (x : X) : Logged X := (x, []).

Definition bind {X Y : Type} (m : Logged X) (f : X -> Logged Y) : Logged Y :=
  let '(x, out) := m in
  let '(y, out') := f x in
  (y, out ++ out').

Notation "x <- m ;; k" := (bind m (fun x => k))
  (at level 61, m at next level, right associativity).

(** [array.map(callback)] for a callback that takes the element, its index
    and the array, and may write to the console. *)
Fixpoint array_map_from {X Y : Type} (callback : X -> nat -> list X -> Logged Y)
  (array : list X) (index : nat) (rest : list X) : Logged (list Y) :=
  match rest with
  | [] => ret []
  | x :: rest' =>
      y <- callback x index array ;;
      ys <- array_map_from callback array (S index) rest' ;;
      ret (y :: ys)
  end.

Definition array_map {X Y : Type} (callback : X -> nat -> list X -> Logged Y)
  (array : list X) : Logged (list Y) :=
  array_map_from callback array 0 array.

(** [maybeOutputList(filterState, groupLabel)]: the game unchanged; on the
    first element, in debug mode, a table of the ids and names. *)
Definition maybeOutputList {R : Type} (filterState : CollectionFilterState)
  (groupLabel : string) (game : Game R) (index : nat) (array : list (Game R))
  : Logged (Game R) :=
  (game,
   if isDebug filterState && (index =? 0)%nat
   then [(groupLabel, map (fun g => (id g, name g)) array)]
   else []).

Definition maybeShowExpansions (filterState : CollectionFilterState)
  (game : SimpleBoardGame) : bool :=
  if showExpansions filterState then true
  else String.eqb (type game) "boardgame".

Definition removeRecsLessThan (minPlayers : Js.number) (rec : PollEntry)
  : bool :=
  Js.ge (playerCountValue rec) minPlayers.

Definition removeRecsMoreThan (maxPlayers : Js.number) (rec : PollEntry)
  : bool :=
  Js.le (playerCountValue rec) maxPlayers.

Definition maybeShowInvalidPlayerCount (filterState : CollectionFilterState)
  (game : SimpleBoardGame) : SimpleBoardGame :=
  if showInvalidPlayerCount filterState then game
  else
    with_recommendedPlayerCount game
      (filter (removeRecsMoreThan (maxPlayers game))
         (filter (removeRecsLessThan (minPlayers game))
            (recommendedPlayerCount game))).

(** Used to determine which bar to highlight in the graph. *)
Definition addIsPlayerCountWithinRange (filterState : CollectionFilterState)
  (game : SimpleBoardGame) : BoardGame :=
  let '(minFilterCount, maxFilterCount) := playerCountRange filterState in
  with_recommendedPlayerCount game
    (map (fun rec =>
            {| entry := rec;
               isPlayerCountWithinRange :=
                 Js.le minFilterCount (playerCountValue rec)
                 && Js.le (playerCountValue rec) maxFilterCount |})
       (recommendedPlayerCount game)).

Definition maybeShowNotRecommended (filterState : CollectionFilterState)
  (game : BoardGame) : bool :=
  if showNotRecommended filterState || showInvalidPlayerCount filterState
  then true
  else
    (0 <? List.length
       (filter
          (fun rec : AnnotatedPollEntry =>
             isPlayerCountWithinRange rec
             && (Js.le (NotRecommendedPercent rec) 50%float
                 || Js.isNaN (NotRecommendedPercent rec)))
          (recommendedPlayerCount game)))%nat.

Definition calcSortScoreSum (game : BoardGame) (minRange maxRange : Js.number)
  : Js.number :=
  fold_left (fun prev (curr : AnnotatedPollEntry) =>
               PrimFloat.add (sortScore curr) prev)
    (filter
       (fun g : AnnotatedPollEntry =>
          Js.le minRange (playerCountValue g)
          && Js.le (playerCountValue g) maxRange)
       (recommendedPlayerCount game))
    0%float.

Section Apply.

(** [isWithinRange] of the three controls that are not among the
    sources. *)
Variable playerCount_isWithinRange :
  CollectionFilterState -> SimpleBoardGame -> bool.
Variable playtime_isWithinRange :
  CollectionFilterState -> SimpleBoardGame -> bool.
Variable complexity_isWithinRange :
  CollectionFilterState -> SimpleBoardGame -> bool.

(** [a.localeCompare(b)]: negative, zero or positive; the order is that of
    the locale of the host. *)
Variable localeCompare : string -> string -> Js.number.

Definition maybeSortByScore (filterState : CollectionFilterState)
  (gameA gameB : BoardGame) : Js.number :=
  (* if using non-default player range, then sort by score *)
  let '(minRange, maxRange) := playerCountRange filterState in
  if Js.strict_neq minRange 1%float
     || Js.strict_neq maxRange Js.POSITIVE_INFINITY
  then
    PrimFloat.sub (calcSortScoreSum gameB minRange maxRange)
      (calcSortScoreSum gameA minRange maxRange)
  else
    (* else sort by game name by default. *)
    localeCompare (name gameA) (name gameB).

(** [applyFiltersAndSorts(filterState)(games)]; [games] may be [null] or
    [undefined], and then [games?.map(...)] ends the whole chain with
    [undefined]. *)
Definition applyFiltersAndSorts (filterState : CollectionFilterState)
  (games : option (list SimpleBoardGame)) : Logged (option (list BoardGame)) :=
  match games with
  | None => ret None
  | Some games =>
      l <- array_map (maybeOutputList filterState "All Games") games ;;
      let l := filter (maybeShowExpansions filterState) l in
      l <- array_map (maybeOutputList filterState "maybeShowExpansions") l ;;
      let l := map (maybeShowInvalidPlayerCount filterState) l in
      let l := filter (playerCount_isWithinRange filterState) l in
      l <- array_map
             (maybeOutputList filterState "isMinMaxPlayerRangeWithinRange") l ;;
      let l := filter (playtime_isWithinRange filterState) l in
      l <- array_map (maybeOutputList filterState "isPlaytimeWithinRange") l ;;
      let l := filter (complexity_isWithinRange filterState) l in
      l <- array_map
             (maybeOutputList filterState "isComplexityWithinRange") l ;;
      let l := filter (RatingsService.isWithinRange filterState) l in
      l <- array_map (maybeOutputList filterState "isRatingsWithinRange") l ;;
      let l := map (addIsPlayerCountWithinRange filterState) l in
      let l := filter (maybeShowNotRecommended filterState) l in
      l <- array_map
             (maybeOutputList filterState "maybeShowNotRecommended") l ;;
      ret (Some (array_sort (maybeSortByScore filterState) l))
  end.

(** The games that reach the annotation stage, and the annotated games
    that reach the sort: the stages of the chain without the console. *)
Definition criteriaStages (filterState : CollectionFilterState)
  (games : list SimpleBoardGame) : list SimpleBoardGame :=
  filter (RatingsService.isWithinRange filterState)
    (filter (complexity_isWithinRange filterState)
       (filter (playtime_isWithinRange filterState)
          (filter (playerCount_isWithinRange filterState)
             (map (maybeShowInvalidPlayerCount filterState)
                (filter (maybeShowExpansions filterState) games))))).

Definition annotatedStage (filterState : CollectionFilterState)
  (games : list SimpleBoardGame) : list BoardGame :=
  map (addIsPlayerCountWithinRange filterState)
    (criteriaStages filterState games).

End Apply.

(** *** PlayerCountSlider.tsx *)

(** The [onChange] handler of the slider: every change of the value while
    the thumb moves is dispatched. *)
Definition PlayerCountSlider_onChange (value : Range) : Action :=
  SET_PLAYER_COUNT_RANGE value.

(** [onChangeCommitted] of the slider controls of [useCollectionFilters]:
    when the change is committed (mouse up), the reducer state is
    updated. *)
Definition sliderControls_onChangeCommitted (setAction : Range -> Action)
  (value : Range) : Action :=
  setAction value.

End CollectionFilters.

(** ** The controls that are not among the sources *)

Module SpecModelled.

(** Modelled from the spec: [playerCountService.isWithinRange], which is
    not among the sources. Spec 4.2: true if the item's own declared
    [[minPlayers, maxPlayers]] interval intersects the active filter
    range. *)
Definition playerCount_isWithinRange (filterState : CollectionFilterState)
  (game : SimpleBoardGame) : bool :=
  SliderUtils.isBoardGameRangeWithinFilterRange
    (minPlayers game, maxPlayers game) (playerCountRange filterState).

(** Modelled from the spec: [playtimeService.isWithinRange], which is not
    among the sources. Spec 4.2: the compared field is the
    [[minPlaytime, maxPlaytime]] interval of the item. *)
Definition playtime_isWithinRange (filterState : CollectionFilterState)
  (game : SimpleBoardGame) : bool :=
  SliderUtils.isBoardGameRangeWithinFilterRange
    (minPlaytime game, maxPlaytime game) (playtimeRange filterState).

(** Modelled from the spec: [complexityService.isWithinRange], which is
    not among the sources. Spec 4.2: true if [averageWeight] lies in
    [[min, max]]. *)
Definition complexity_isWithinRange (filterState : CollectionFilterState)
  (game : SimpleBoardGame) : bool :=
  SliderUtils.isBoardGameRangeWithinFilterRange
    (averageWeight game, averageWeight game) (complexityRange filterState).

(** Modelled from the spec: [playerCountService.getReducedState], which is
    not among the sources. Spec 4.2: it returns the state with only its own
    field replaced. *)
Definition set_playerCountRange : CollectionFilters.ActionHandler Range :=
  fun state payload =>
    {| username := username state;
       showInvalidPlayerCount := showInvalidPlayerCount state;
       playerCountRange := payload;
       playtimeRange := playtimeRange state;
       complexityRange := complexityRange state;
       showExpansions := showExpansions state;
       showRatings := showRatings state;
       ratingsRange := ratingsRange state;
       showNotRecommended := showNotRecommended state;
       isDebug := isDebug state |}.

(** Modelled from the spec: [playtimeService.getReducedState], which is
    not among the sources; only [playtimeRange] is replaced (spec 4.2). *)
Definition set_playtimeRange : CollectionFilters.ActionHandler Range :=
  fun state payload =>
    {| username := username state;
       showInvalidPlayerCount := showInvalidPlayerCount state;
       playerCountRange := playerCountRange state;
       playtimeRange := payload;
       complexityRange := complexityRange state;
       showExpansions := showExpansions state;
       showRatings := showRatings state;
       ratingsRange := ratingsRange state;
       showNotRecommended := showNotRecommended state;
       isDebug := isDebug state |}.

(** Modelled from the spec: [complexityService.getReducedState], which is
    not among the sources; only [complexityRange] is replaced (spec 4.2). *)
Definition set_complexityRange : CollectionFilters.ActionHandler Range :=
  fun state payload =>
    {| username := username state;
       showInvalidPlayerCount := showInvalidPlayerCount state;
       playerCountRange := playerCountRange state;
       playtimeRange := playtimeRange state;
       complexityRange := payload;
       showExpansions := showExpansions state;
       showRatings := showRatings state;
       ratingsRange := ratingsRange state;
       showNotRecommended := showNotRecommended state;
       isDebug := isDebug state |}.

(** Modelled from the spec: [username.getReducedState], which is not among
    the sources; only [username] is replaced (spec 4.4). *)
Definition set_username : CollectionFilters.ActionHandler string :=
  fun state payload =>
    {| username := payload;
       showInvalidPlayerCount := showInvalidPlayerCount state;
       playerCountRange := playerCountRange state;
       playtimeRange := playtimeRange state;
       complexityRange := complexityRange state;
       showExpansions := showExpansions state;
       showRatings := showRatings state;
       ratingsRange := ratingsRange state;
       showNotRecommended := showNotRecommended state;
       isDebug := isDebug state |}.

(** Modelled from the spec: [showRatings.getReducedState], which is not
    among the sources; the ratings mode is set to the given value
    (spec 4.3). *)
Definition set_showRatings : CollectionFilters.ActionHandler ShowRatings :=
  fun state payload =>
    {| username := username state;
       showInvalidPlayerCount := showInvalidPlayerCount state;
       playerCountRange := playerCountRange state;
       playtimeRange := playtimeRange state;
       complexityRange := complexityRange state;
       showExpansions := showExpansions state;
       showRatings := payload;
       ratingsRange := ratingsRange state;
       showNotRecommended := showNotRecommended state;
       isDebug := isDebug state |}.

(** Modelled from the spec: [booleanQueryParam.getReducedState(stateKey)],
    which is not among the sources; a transition that ignores its payload
    and flips the named boolean (spec 4.3). *)
Definition toggle_boolean (stateKey : string)
  : CollectionFilters.ActionHandler unit :=
  fun state _ =>
    let flip (key : string) (value : bool) :=
      if String.eqb stateKey key then negb value else value in
    {| username := username state;
       showInvalidPlayerCount :=
         flip "showInvalidPlayerCount"%string (showInvalidPlayerCount state);
       playerCountRange := playerCountRange state;
       playtimeRange := playtimeRange state;
       complexityRange := complexityRange state;
       showExpansions := flip "showExpansions"%string (showExpansions state);
       showRatings := showRatings state;
       ratingsRange := ratingsRange state;
       showNotRecommended :=
         flip "showNotRecommended"%string (showNotRecommended state);
       isDebug := flip "isDebug"%string (isDebug state) |}.

(** Modelled from the spec: an instance of the absent controls on which
    the reducer can be run. Its handlers are the ones above; the toggle of the ratings mode is
    left as the identity and the writers of the query parameters write
    nothing, since the spec fixes neither the cycle of the toggle nor the
    text of an encoded number. The theorems on the reducer hold for every
    instance. *)
Definition controls : CollectionFilters.Controls :=
  {| CollectionFilters.complexity_getReducedState := set_complexityRange;
     CollectionFilters.playerCount_getReducedState := set_playerCountRange;
     CollectionFilters.playtime_getReducedState := set_playtimeRange;
     CollectionFilters.username_getReducedState := set_username;
     CollectionFilters.showRatings_getToggleShowRatings := fun state _ => state;
     CollectionFilters.showRatings_getReducedState := set_showRatings;
     CollectionFilters.boolean_getReducedState := toggle_boolean;
     CollectionFilters.username_setQueryParam := fun searchParams _ => searchParams;
     CollectionFilters.playerCount_setQueryParam := fun searchParams _ => searchParams;
     CollectionFilters.playtime_setQueryParam := fun searchParams _ => searchParams;
     CollectionFilters.complexity_setQueryParam := fun searchParams _ => searchParams;
     CollectionFilters.sliderMaybeSetQueryParam := fun searchParams _ _ _ => searchParams;
     CollectionFilters.showRatings_setQueryParam := fun searchParams _ => searchParams;
     CollectionFilters.boolean_setQueryParam := fun searchParams _ _ => searchParams |}.

(** A host whose [localeCompare] orders strings by their code units; it
    answers [-1], [0] or [1]. *)
Fixpoint codeUnitCompare (a b : string) : Js.number :=
  match a, b with
  | EmptyString, EmptyString => 0%float
  | EmptyString, String _ _ => (-1)%float
  | String _ _, EmptyString => 1%float
  | String c a', String d b' =>
      match N.compare (N_of_ascii c) (N_of_ascii d) with
      | Lt => (-1)%float
      | Gt => 1%float
      | Eq => codeUnitCompare a' b'
      end
  end.

(** The pipeline with the three absent membership tests as above. *)
Definition applyFiltersAndSorts (localeCompare : string -> string -> Js.number)
  (filterState : CollectionFilterState)
  (games : option (list SimpleBoardGame))
  : CollectionFilters.Logged (option (list BoardGame)) :=
  CollectionFilters.applyFiltersAndSorts
    playerCount_isWithinRange playtime_isWithinRange complexity_isWithinRange
    localeCompare filterState games.

End SpecModelled.

(** ** Properties stated over the model *)

(** The invariant of a ratings range: [min <= max], both within
    [[1, 10]]. *)
Definition in_ratings_domain (x : Js.number) : bool :=
  Js.le RatingsService.DEFAULT_RATINGS_MIN x
  && Js.le x RatingsService.DEFAULT_RATINGS_MAX.

Definition ratings_invariant (r : Range) : bool :=
  Js.le (fst r) (snd r) && in_ratings_domain (fst r)
  && in_ratings_domain (snd r).

(** One bound of the decoded range: the default when the part is not a
    number, the part clamped into the domain otherwise. *)
Definition decodedBound (default : Js.number) (part : string) : Js.number :=
  if Js.isNaN (Js.parseFloat part) then default
  else Js.clamp (Js.parseFloat part) RatingsService.DEFAULT_RATINGS_MIN RatingsService.DEFAULT_RATINGS_MAX.

(** The four range criteria, the range of each in a state, and the state
    with one of them replaced. *)
Inductive Criterion := PlayerCount | Playtime | Complexity | Ratings.

Definition getRange (c : Criterion) (state : CollectionFilterState) : Range :=
  match c with
  | PlayerCount => playerCountRange state
  | Playtime => playtimeRange state
  | Complexity => complexityRange state
  | Ratings => ratingsRange state
  end.

Definition setRange (c : Criterion) (r : Range)
  (state : CollectionFilterState) : CollectionFilterState :=
  match c with
  | PlayerCount => SpecModelled.set_playerCountRange state r
  | Playtime => SpecModelled.set_playtimeRange state r
  | Complexity => SpecModelled.set_complexityRange state r
  | Ratings => RatingsService.getReducedState state r
  end.

Definition Criterion_eqb (a b : Criterion) : bool :=
  match a, b with
  | PlayerCount, PlayerCount | Playtime, Playtime
  | Complexity, Complexity | Ratings, Ratings => true
  | _, _ => false
  end.

(** [wide] contains [narrow]. *)
Definition range_contains (wide narrow : Range) : bool :=
  Js.le (fst wide) (fst narrow) && Js.le (snd narrow) (snd wide).

(** The collection item under an annotated game. *)
Definition forget (game : BoardGame) : SimpleBoardGame :=
  with_recommendedPlayerCount game (map entry (recommendedPlayerCount game)).

(** The sum of [sortScore] over the poll entries of a game within the
    player-count range of the state. *)
Definition scoreSum (filterState : CollectionFilterState) (game : BoardGame)
  : Js.number :=
  CollectionFilters.calcSortScoreSum game
    (fst (playerCountRange filterState)) (snd (playerCountRange filterState)).




(** Whether the player-count range is the default [[1, +oo)]. *)
Definition isDefaultPlayerCountRange (filterState : CollectionFilterState)
  : bool :=
  Js.strict_eq (fst (playerCountRange filterState)) 1%float
  && Js.strict_eq (snd (playerCountRange filterState)) Js.POSITIVE_INFINITY.


(** The shape of a positive number, on the specification of binary64. *)
Definition is_positive (f : spec_float) : bool :=
  match f with
  | S754_infinity false | S754_finite false _ _ => true
  | _ => false
  end.

(** ** PlayerCountSlider.tsx *)

Module PlayerCountSlider.

(** The [scale] of the slider: the mark 11 stands for "10+". *)
Definition convertElevenToInfinity (value : Js.number) : Js.number :=
  if Js.ge value 11%float then Js.POSITIVE_INFINITY else value.

End PlayerCountSlider.

(** ** Further notions for stating properties *)

(** The fields of a game other than its poll entries. *)
Definition itemFields {R : Type} (game : Game R) :=
  (id game, name game, type game, thumbnail game,
   minPlayers game, maxPlayers game, minPlaytime game, maxPlaytime game,
   averageWeight game, userRating game, averageRating game).

(** The state with one of its flags replaced. *)
Definition with_isDebug (value : bool) (state : CollectionFilterState)
  : CollectionFilterState :=
  {| username := username state;
     showInvalidPlayerCount := showInvalidPlayerCount state;
     playerCountRange := playerCountRange state;
     playtimeRange := playtimeRange state;
     complexityRange := complexityRange state;
     showExpansions := showExpansions state;
     showRatings := showRatings state;
     ratingsRange := ratingsRange state;
     showNotRecommended := showNotRecommended state;
     isDebug := value |}.

Definition with_showExpansions (value : bool) (state : CollectionFilterState)
  : CollectionFilterState :=
  {| username := username state;
     showInvalidPlayerCount := showInvalidPlayerCount state;
     playerCountRange := playerCountRange state;
     playtimeRange := playtimeRange state;
     complexityRange := complexityRange state;
     showExpansions := value;
     showRatings := showRatings state;
     ratingsRange := ratingsRange state;
     showNotRecommended := showNotRecommended state;
     isDebug := isDebug state |}.

Definition with_showNotRecommended (value : bool)
  (state : CollectionFilterState) : CollectionFilterState :=
  {| username := username state;
     showInvalidPlayerCount := showInvalidPlayerCount state;
     playerCountRange := playerCountRange state;
     playtimeRange := playtimeRange state;
     complexityRange := complexityRange state;
     showExpansions := showExpansions state;
     showRatings := showRatings state;
     ratingsRange := ratingsRange state;
     showNotRecommended := value;
     isDebug := isDebug state |}.

(** The in-range test of the annotation and of the score, for a state. *)
Definition inPlayerCountRange (state : CollectionFilterState)
  (value : Js.number) : bool :=
  Js.le (fst (playerCountRange state)) value
  && Js.le value (snd (playerCountRange state)).

(** The rows of a debug table. *)
Definition tableRows {R : Type} (array : list (Game R)) : list (Z * string) :=
  map (fun g => (id g, name g)) array.

(** The number of dispatches of a sequence whose new state has a
    username. *)
Fixpoint namedSteps (controls : CollectionFilters.Controls)
  (state : CollectionFilterState) (acts : list CollectionFilters.Action)
  : nat :=
  match acts with
  | [] => 0
  | a :: rest =>
      let state' := CollectionFilters.actions controls state a in
      ((match username state' with EmptyString => 0 | _ => 1 end)
       + namedSteps controls state' rest)%nat
  end.

(** ** Sample data *)

Module Sample.

Definition state : CollectionFilterState :=
  {| username := EmptyString;
     showInvalidPlayerCount := false;
     playerCountRange := (1%float, Js.POSITIVE_INFINITY);
     playtimeRange := (0%float, Js.POSITIVE_INFINITY);
     complexityRange := (1%float, 5%float);
     showExpansions := false;
     showRatings := AVERAGE_RATING;
     ratingsRange := (1%float, 10%float);
     showNotRecommended := false;
     isDebug := false |}.

Definition poll (n score notRec : Js.number) : PollEntry :=
  {| numplayers := Num n; playerCountValue := n; sortScore := score;
     NotRecommendedPercent := notRec |}.

Definition game (i : Z) (title : string) (lo hi : Js.number)
  (rating : Js.number) (recs : list PollEntry) : SimpleBoardGame :=
  {| id := i; name := title; type := "boardgame"; thumbnail := EmptyString;
     minPlayers := lo; maxPlayers := hi;
     minPlaytime := 30%float; maxPlaytime := 60%float;
     averageWeight := 2.5%float;
     userRating := Str "N/A"; averageRating := rating;
     recommendedPlayerCount := recs |}.

Definition azul : SimpleBoardGame :=
  game 1 "Azul" 2%float 4%float 7.5%float
    [poll 2%float 20%float 10%float; poll 3%float 60%float 5%float;
     poll 4%float 40%float 20%float].

Definition catan : SimpleBoardGame :=
  game 2 "Catan" 3%float 4%float 7%float
    [poll 3%float 30%float 30%float; poll 4%float 90%float 2%float].

Definition brass : SimpleBoardGame :=
  game 3 "Brass" 2%float 4%float 8.5%float
    [poll 2%float 10%float 60%float; poll 3%float 80%float 1%float;
     poll 4%float 70%float 3%float].

(** A game whose only poll entry has no votes. *)
Definition nodata : SimpleBoardGame :=
  game 4 "Nodata" 2%float 2%float 6%float
    [poll 2%float 0%float PrimFloat.nan].

Definition games : list SimpleBoardGame := [catan; azul; brass].

Definition named : CollectionFilterState :=
  SpecModelled.set_username state "bob"%string.

(** A page with an empty query string and one entry in its history. *)
Definition browser : Browser := {| location := []; history := [[]] |}.

(** The values a drag of the upper thumb of the player-count slider passes
    through before the mouse is released. *)
Definition drag : list Range :=
  [(1%float, 2%float); (1%float, 3%float); (1%float, 4%float)].

(** The player-count range [[3, 3]]. *)
Definition three : CollectionFilterState :=
  SpecModelled.set_playerCountRange state (3%float, 3%float).

(** An expansion, otherwise like the sample games. *)
Definition expansion : SimpleBoardGame :=
  {| id := 5; name := "Seafarers"; type := "boardgameexpansion";
     thumbnail := EmptyString;
     minPlayers := 3%float; maxPlayers := 4%float;
     minPlaytime := 30%float; maxPlaytime := 60%float;
     averageWeight := 2.5%float;
     userRating := Str "N/A"; averageRating := 7%float;
     recommendedPlayerCount :=
       [poll 2%float 5%float 80%float; poll 3%float 50%float 10%float;
        poll 4%float 50%float 10%float] |}.

(** The sample state in debug mode. *)
Definition debugging : CollectionFilterState := with_isDebug true state.

(** A player-count range for which no sample game has a poll entry, with
    the not-recommended filter off. *)
Definition seven : CollectionFilterState :=
  with_showNotRecommended true
    (SpecModelled.set_playerCountRange state (7%float, 8%float)).

(** A membership test that lets every game through. *)
Definition anyGame (_ : CollectionFilterState) (_ : SimpleBoardGame) : bool :=
  true.

(** A game for which the poll has no entry. *)
Definition unpolled : SimpleBoardGame :=
  game 6 "Unpolled" 2%float 4%float 7%float [].





(** A game for two players whose poll also has entries for one and for
    three players. *)
Definition duel : SimpleBoardGame :=
  game 7 "Duel" 2%float 2%float 7%float
    [poll 1%float 5%float 90%float; poll 2%float 95%float 1%float;
     poll 3%float 5%float 90%float].

End Sample.

(** * Facts *)

(** ** Binary64 order and subtraction

    The comparisons and the subtraction of the primitive numbers are
    specified by the Standard Library on [spec_float]; the facts below are
    derived from that specification. *)

Local Open Scope Z_scope.

Module FloatFacts.

Section Spec.

Variables prec emax : Z.
Hypothesis prec_pos : 0 < prec.

Abbreviation emin := (SpecFloat.emin prec emax).
Abbreviation fexp := (SpecFloat.fexp prec emax).

Lemma SFltb_zero_l f : SFltb (S754_zero false) f = is_positive f.
Proof. destruct f as [s|s| |s m e]; try destruct s; reflexivity. Qed.

Lemma fexp_ge_emin e : emin <= fexp e.
Proof. unfold SpecFloat.fexp. lia. Qed.

Lemma digits2_pos_bounds m :
  2 ^ (Zpos (digits2_pos m) - 1) <= Zpos m < 2 ^ Zpos (digits2_pos m).
Proof.
  induction m as [m IH|m IH|]; simpl digits2_pos.
  - rewrite Pos2Z.inj_succ.
    replace (Z.succ (Zpos (digits2_pos m)) - 1) with (Z.succ (Zpos (digits2_pos m) - 1)) by lia.
    rewrite !Z.pow_succ_r by lia. lia.
  - rewrite Pos2Z.inj_succ.
    replace (Z.succ (Zpos (digits2_pos m)) - 1) with (Z.succ (Zpos (digits2_pos m) - 1)) by lia.
    rewrite !Z.pow_succ_r by lia. lia.
  - simpl. lia.
Qed.

Lemma shr_1_lower k r :
  1 <= k -> 2 ^ k <= shr_m r -> 2 ^ (k - 1) <= shr_m (shr_1 r).
Proof.
  intros Hk H. destruct r as [m r s]. simpl in *.
  replace k with (Z.succ (k - 1)) in H by lia.
  rewrite Z.pow_succ_r in H by lia.
  assert (0 < 2 ^ (k - 1)) by (apply Z.pow_pos_nonneg; lia).
  destruct m as [|[p|p|]|[p|p|]]; simpl; lia.
Qed.

Lemma iter_shr_1_lower p : forall k r,
  Zpos p <= k -> 2 ^ k <= shr_m r ->
  2 ^ (k - Zpos p) <= shr_m (iter_pos shr_1 p r).
Proof.
  induction p as [p IH|p IH|]; intros k r Hk H; simpl iter_pos.
  - replace (k - Zpos p~1) with (k - 1 - Zpos p - Zpos p) by lia.
    apply IH; [lia|]. apply IH; [lia|]. apply shr_1_lower; [lia|exact H].
  - replace (k - Zpos p~0) with (k - Zpos p - Zpos p) by lia.
    apply IH; [lia|]. apply IH; [lia|exact H].
  - apply shr_1_lower; [lia|exact H].
Qed.

Lemma shr_m_record_of_loc m l : shr_m (shr_record_of_loc m l) = m.
Proof. destruct l as [|[]]; reflexivity. Qed.

(** Shifting to the canonical exponent keeps a positive mantissa positive
    when the exponent is not below [emin]. *)
Lemma shr_fexp_pos m e l :
  0 < m -> emin <= e ->
  0 < shr_m (fst (shr_fexp prec emax m e l)) /\
  emin <= snd (shr_fexp prec emax m e l).
Proof.
  intros Hm He. unfold shr_fexp, shr.
  destruct m as [|m|m]; try lia. simpl Zdigits2.
  destruct (fexp (Zpos (digits2_pos m) + e) - e) as [|n|n] eqn:En; simpl;
    rewrite ?shr_m_record_of_loc; try (split; lia).
  assert (Hn : Zpos n = Zpos (digits2_pos m) - prec).
  { unfold SpecFloat.fexp in En. lia. }
  split; [|lia].
  pose proof (digits2_pos_bounds m) as [Hlo _].
  assert (Hk : Zpos n <= Zpos (digits2_pos m) - 1) by lia.
  pose proof (iter_shr_1_lower n (Zpos (digits2_pos m) - 1)
                (shr_record_of_loc (Zpos m) l) Hk) as H.
  rewrite shr_m_record_of_loc in H. specialize (H Hlo).
  assert (0 < 2 ^ (Zpos (digits2_pos m) - 1 - Zpos n))
    by (apply Z.pow_pos_nonneg; lia).
  lia.
Qed.

Lemma round_nearest_even_ge m l : m <= round_nearest_even m l.
Proof.
  destruct l as [|[]]; simpl; try lia. destruct (Z.even m); lia.
Qed.

Lemma binary_round_aux_positive m e l :
  0 < m -> emin <= e ->
  is_positive (binary_round_aux prec emax false m e l) = true.
Proof.
  intros Hm He. unfold binary_round_aux.
  pose proof (shr_fexp_pos m e l Hm He) as [H1 H1e].
  destruct (shr_fexp prec emax m e l) as [mrs' e']. simpl in H1, H1e.
  set (m' := round_nearest_even (shr_m mrs') (loc_of_shr_record mrs')).
  assert (Hm' : 0 < m').
  { pose proof (round_nearest_even_ge (shr_m mrs') (loc_of_shr_record mrs')).
    unfold m'. lia. }
  pose proof (shr_fexp_pos m' e' loc_Exact Hm' H1e) as [H2 _].
  destruct (shr_fexp prec emax m' e' loc_Exact) as [mrs'' e'']. simpl in H2.
  destruct (shr_m mrs''); try lia.
  destruct (e'' <=? emax - prec); reflexivity.
Qed.

Lemma binary_round_aux_negative m e l :
  is_positive (binary_round_aux prec emax true m e l) = false.
Proof.
  unfold binary_round_aux.
  destruct (shr_fexp prec emax m e l) as [mrs' e'].
  destruct (shr_fexp prec emax _ e' loc_Exact) as [mrs'' e''].
  destruct (shr_m mrs''); try reflexivity.
  destruct (e'' <=? emax - prec); reflexivity.
Qed.

Lemma shl_align_exponent m e e' : emin <= e -> emin <= e' ->
  emin <= snd (shl_align m e e').
Proof.
  intros. unfold shl_align. destruct (e' - e); simpl; lia.
Qed.

(** The sign of a rounded integer: rounding never takes a positive
    multiple of [2 ^ e], [e] not below [emin], to zero. *)
Lemma binary_normalize_positive d e :
  emin <= e ->
  is_positive (binary_normalize prec emax d e false) = (0 <? d).
Proof.
  intros He. destruct d as [|d|d]; simpl; try reflexivity.
  - unfold binary_round.
    pose proof (shl_align_exponent d e (fexp (Zpos (digits2_pos d) + e)) He
                  (fexp_ge_emin _)) as Hz.
    destruct (shl_align d e _) as [mz ez]. simpl in Hz.
    apply binary_round_aux_positive; lia.
  - unfold binary_round. destruct (shl_align d e _) as [mz ez].
    apply binary_round_aux_negative.
Qed.

Lemma Pos_iter_xO m d : Zpos (Pos.iter xO m d) = Zpos m * 2 ^ Zpos d.
Proof.
  revert m. induction d as [|d IH] using Pos.peano_ind; intros m.
  - reflexivity || (cbn; lia).
  - rewrite Pos.iter_succ, Pos2Z.inj_succ, Z.pow_succ_r by lia.
    rewrite Pos2Z.inj_xO, IH. ring.
Qed.

Lemma shl_align_value m e ez : ez <= e ->
  Zpos (fst (shl_align m e ez)) = Zpos m * 2 ^ (e - ez).
Proof.
  intros H. unfold shl_align.
  destruct (ez - e) as [|d|d] eqn:Ed; simpl.
  - replace (e - ez) with 0 by lia. simpl. lia.
  - lia.
  - rewrite Pos_iter_xO. replace (e - ez) with (Zpos d) by lia. reflexivity.
Qed.

Lemma bounded_facts m e : bounded prec emax m e = true ->
  emin <= e /\ Zpos m < 2 ^ prec /\ (emin < e -> 2 ^ (prec - 1) <= Zpos m).
Proof.
  unfold bounded, canonical_mantissa. intros H.
  apply andb_true_iff in H as [H _]. apply Z.eqb_eq in H.
  unfold SpecFloat.fexp in H.
  pose proof (digits2_pos_bounds m) as [Hlo Hhi].
  assert (Hd : Zpos (digits2_pos m) <= prec) by lia.
  split; [lia|]. split.
  - apply Z.lt_le_trans with (1 := Hhi). apply Z.pow_le_mono_r; lia.
  - intros He. assert (Zpos (digits2_pos m) = prec) by lia.
    rewrite <- H0. exact Hlo.
Qed.

(** The aligned mantissas of two canonical numbers compare as their
    exponents and mantissas do. *)
Lemma aligned_compare mx ex my ey :
  bounded prec emax mx ex = true -> bounded prec emax my ey = true ->
  (Zpos (fst (shl_align mx ex (Z.min ey ex)))
     ?= Zpos (fst (shl_align my ey (Z.min ey ex)))) =
  match ex ?= ey with
  | Lt => Lt
  | Gt => Gt
  | Eq => Pos.compare_cont Eq mx my
  end.
Proof.
  intros Hx Hy.
  apply bounded_facts in Hx as (Hxe & Hxhi & Hxlo).
  apply bounded_facts in Hy as (Hye & Hyhi & Hylo).
  rewrite !shl_align_value by lia.
  destruct (Z.compare_spec ex ey) as [E|E|E].
  - subst. rewrite Z.min_id, Z.sub_diag. simpl. rewrite !Pos.mul_1_r.
    reflexivity.
  - rewrite Z.min_r by lia. rewrite Z.sub_diag, Z.mul_1_r.
    apply Z.compare_lt_iff.
    assert (2 <= 2 ^ (ey - ex)).
    { change 2 with (2 ^ 1) at 1. apply Z.pow_le_mono_r; lia. }
    assert (2 ^ prec = 2 * 2 ^ (prec - 1)).
    { replace prec with (Z.succ (prec - 1)) at 1 by lia.
      apply Z.pow_succ_r. lia. }
    specialize (Hylo ltac:(lia)). nia.
  - rewrite Z.min_l by lia. rewrite Z.sub_diag, Z.mul_1_r.
    apply Z.compare_gt_iff.
    assert (2 <= 2 ^ (ex - ey)).
    { change 2 with (2 ^ 1) at 1. apply Z.pow_le_mono_r; lia. }
    assert (2 ^ prec = 2 * 2 ^ (prec - 1)).
    { replace prec with (Z.succ (prec - 1)) at 1 by lia.
      apply Z.pow_succ_r. lia. }
    specialize (Hxlo ltac:(lia)). nia.
Qed.

(** [y - x] is positive exactly when [x < y]. *)
Lemma SFsub_positive x y :
  SpecFloat.valid_binary prec emax x = true ->
  SpecFloat.valid_binary prec emax y = true ->
  x <> S754_nan -> y <> S754_nan ->
  SFltb (S754_zero false) (SFsub prec emax y x) = SFltb x y.
Proof.
  intros Vx Vy Nx Ny. rewrite SFltb_zero_l.
  destruct x as [sx|sx| |sx mx ex], y as [sy|sy| |sy my ey];
    try congruence;
    try (destruct sx, sy; reflexivity);
    try (destruct sx; reflexivity);
    try (destruct sy; reflexivity).
  simpl in Vx, Vy. unfold SFsub.
  pose proof (bounded_facts _ _ Vx) as (Hxe & _).
  pose proof (bounded_facts _ _ Vy) as (Hye & _).
  rewrite binary_normalize_positive by lia.
  pose proof (aligned_compare mx ex my ey Vx Vy) as Hc.
  unfold SFltb, SFcompare.
  set (ax := Zpos (fst (shl_align mx ex (Z.min ey ex)))) in *.
  set (ay := Zpos (fst (shl_align my ey (Z.min ey ex)))) in *.
  assert (0 < ax) by (unfold ax; lia).
  assert (0 < ay) by (unfold ay; lia).
  clearbody ax ay.
  destruct sx, sy; unfold cond_Zopp.
  - (* both negative *)
    destruct (ex ?= ey); [rewrite <- Hc| |];
      destruct (Z.compare_spec ax ay) as [E|E|E]; try discriminate Hc;
      cbn [CompOpp];
      first [ apply Z.ltb_lt; lia | apply Z.ltb_ge; lia ].
  - apply Z.ltb_lt; lia.
  - apply Z.ltb_ge; lia.
  - destruct (ex ?= ey); [rewrite <- Hc| |];
      destruct (Z.compare_spec ax ay) as [E|E|E]; try discriminate Hc;
      first [ apply Z.ltb_lt; lia | apply Z.ltb_ge; lia ].
Qed.

End Spec.

Lemma Pos_compare_cont_Eq p q : Pos.compare_cont Eq p q = (p ?= q)%positive.
Proof. reflexivity. Qed.

Lemma SFcompare_refl x : x <> S754_nan -> SFcompare x x = Some Eq.
Proof.
  destruct x as [s|s| |s m e]; intros H; try congruence;
    destruct s; simpl; try reflexivity;
    rewrite Z.compare_refl, Pos_compare_cont_Eq, Pos.compare_refl;
    reflexivity.
Qed.

Lemma SFcompare_antisym x y :
  SFcompare y x = option_map CompOpp (SFcompare x y).
Proof.
  destruct x as [sx|sx| |sx mx ex], y as [sy|sy| |sy my ey];
    try reflexivity;
    try (destruct sx, sy; reflexivity);
    try (destruct sx; reflexivity);
    try (destruct sy; reflexivity).
  destruct sx, sy; simpl; try reflexivity;
    rewrite (Z.compare_antisym ex ey), !Pos_compare_cont_Eq,
      (Pos.compare_antisym mx my);
    destruct (ex ?= ey); simpl; try reflexivity;
    destruct (mx ?= my)%positive; reflexivity.
Qed.

Lemma SFltb_SFleb x y : SFltb x y = true -> SFleb x y = true.
Proof. unfold SFltb, SFleb. destruct (SFcompare x y) as [[]|]; congruence. Qed.

Lemma SFcompare_some x y :
  x <> S754_nan -> y <> S754_nan -> SFcompare x y <> None.
Proof.
  destruct x as [sx|sx| |sx mx ex], y as [sy|sy| |sy my ey];
    simpl; congruence.
Qed.


Lemma Pos_compare_cont_spec p q :
  CompareSpec (p = q) (p < q)%positive (q < p)%positive
    (Pos.compare_cont Eq p q).
Proof. exact (Pos.compare_spec p q). Qed.

Lemma SFleb_trans x y z :
  SFleb x y = true -> SFleb y z = true -> SFleb x z = true.
Proof.
  unfold SFleb.
  destruct x as [sx|sx| |sx mx ex], y as [sy|sy| |sy my ey],
    z as [sz|sz| |sz mz ez];
    try (simpl; congruence);
    try (destruct sx; simpl; congruence);
    try (destruct sy; simpl; congruence);
    try (destruct sz; simpl; congruence);
    try (destruct sx, sy; simpl; congruence);
    try (destruct sx, sz; simpl; congruence);
    try (destruct sy, sz; simpl; congruence);
    try (destruct sx, sy, sz; simpl; congruence).
  destruct sx, sy, sz; cbn [SFcompare]; try congruence;
    destruct (Z.compare_spec ex ey), (Z.compare_spec ey ez),
      (Z.compare_spec ex ez); try lia; try congruence; subst;
    destruct (Pos_compare_cont_spec mx my), (Pos_compare_cont_spec my mz),
      (Pos_compare_cont_spec mx mz); cbn [CompOpp]; try congruence; lia.
Qed.

(** *** The same facts on binary64 numbers *)

Lemma is_nan_false x : PrimFloat.is_nan x = false -> Prim2SF x <> S754_nan.
Proof.
  unfold PrimFloat.is_nan. rewrite eqb_spec. intros H E. rewrite E in H.
  discriminate H.
Qed.

Lemma leb_trans a b c :
  PrimFloat.leb a b = true -> PrimFloat.leb b c = true ->
  PrimFloat.leb a c = true.
Proof. rewrite !leb_spec. apply SFleb_trans. Qed.

Lemma ltb_leb a b : PrimFloat.ltb a b = true -> PrimFloat.leb a b = true.
Proof. rewrite ltb_spec, leb_spec. apply SFltb_SFleb. Qed.


Lemma leb_not_nan a b :
  PrimFloat.leb a b = true ->
  PrimFloat.is_nan a = false /\ PrimFloat.is_nan b = false.
Proof.
  unfold PrimFloat.is_nan. rewrite leb_spec, !eqb_spec. unfold SFleb, SFeqb.
  intros H.
  assert (Ha : Prim2SF a <> S754_nan).
  { intros E. rewrite E in H. discriminate H. }
  assert (Hb : Prim2SF b <> S754_nan).
  { intros E. rewrite E in H. destruct (Prim2SF a); discriminate H. }
  rewrite !SFcompare_refl by assumption. split; reflexivity.
Qed.

(** The sign of a difference: [0 < b - a] exactly when [a < b], for
    numbers other than [NaN]. *)
Lemma sub_positive a b :
  PrimFloat.is_nan a = false -> PrimFloat.is_nan b = false ->
  PrimFloat.ltb 0%float (PrimFloat.sub b a) = PrimFloat.ltb a b.
Proof.
  intros Ha Hb. rewrite !ltb_spec, sub_spec.
  change (Prim2SF 0%float) with (S754_zero false).
  apply SFsub_positive; try apply Prim2SF_valid;
    try (apply is_nan_false; assumption).
  reflexivity.
Qed.

Lemma SFltb_SFleb_false x y : SFltb x y = true -> SFleb y x = false.
Proof.
  unfold SFltb, SFleb. rewrite (SFcompare_antisym x y).
  destruct (SFcompare x y) as [[]|]; simpl; congruence.
Qed.

Lemma ltb_leb_false a b :
  PrimFloat.ltb a b = true -> PrimFloat.leb b a = false.
Proof. rewrite ltb_spec, leb_spec. apply SFltb_SFleb_false. Qed.

Lemma leb_false_ltb a b :
  PrimFloat.is_nan a = false -> PrimFloat.is_nan b = false ->
  PrimFloat.leb a b = false -> PrimFloat.ltb b a = true.
Proof.
  intros Ha Hb. rewrite ltb_spec, leb_spec.
  apply is_nan_false in Ha. apply is_nan_false in Hb.
  unfold SFltb, SFleb. rewrite (SFcompare_antisym (Prim2SF a) (Prim2SF b)).
  pose proof (SFcompare_some _ _ Ha Hb).
  destruct (SFcompare (Prim2SF a) (Prim2SF b)) as [[]|]; simpl; congruence.
Qed.

Lemma SFadd_comm prec emax x y : SFadd prec emax x y = SFadd prec emax y x.
Proof.
  destruct x as [sx|sx| |sx mx ex], y as [sy|sy| |sy my ey];
    try reflexivity;
    try (destruct sx, sy; reflexivity).
  unfold SFadd. rewrite (Z.min_comm ey ex). f_equal. apply Z.add_comm.
Qed.

Lemma add_comm a b : PrimFloat.add a b = PrimFloat.add b a.
Proof.
  apply Prim2SF_inj. rewrite !add_spec. apply SFadd_comm.
Qed.

End FloatFacts.

Local Close Scope Z_scope.

(** ** [parseFloat] on sample strings *)

Example parseFloat_integer : Js.parseFloat "7" = 7%float.
Proof. reflexivity. Qed.

Example parseFloat_fraction : Js.parseFloat "7.5" = 7.5%float.
Proof. reflexivity. Qed.

Example parseFloat_tenth : Js.parseFloat "0.1" = 0x1.999999999999ap-4%float.
Proof. reflexivity. Qed.

Example parseFloat_prefix : Js.parseFloat " -7.5e1x" = (-75)%float.
Proof. reflexivity. Qed.

Example parseFloat_leading_point : Js.parseFloat ".5" = 0.5%float.
Proof. reflexivity. Qed.

Example parseFloat_incomplete_exponent : Js.parseFloat "1e+" = 1%float.
Proof. reflexivity. Qed.

Example parseFloat_overflow : Js.parseFloat "1e400" = PrimFloat.infinity.
Proof. reflexivity. Qed.

Example parseFloat_smallest : Js.parseFloat "5e-324" = 0x1p-1074%float.
Proof. reflexivity. Qed.

Example parseFloat_ties_to_even :
  Js.parseFloat "9007199254740993" = 9007199254740992%float.
Proof. reflexivity. Qed.

Example parseFloat_Infinity : Js.parseFloat "-Infinity" = PrimFloat.neg_infinity.
Proof. reflexivity. Qed.

Example parseFloat_no_number :
  Js.isNaN (Js.parseFloat "foo") = true
  /\ Js.isNaN (Js.parseFloat EmptyString) = true
  /\ Js.isNaN (Js.parseFloat ".") = true
  /\ Js.isNaN (Js.parseFloat "-") = true.
Proof. repeat split. Qed.

Example split_pieces :
  Js.split "-" "7-9-3" = ["7"; "9"; "3"]%string
  /\ Js.split "-" "-5" = [EmptyString; "5"]%string
  /\ Js.split "-" "15-" = ["15"; EmptyString]%string.
Proof. repeat split. Qed.

(** ** Strings *)

Lemma split_without_separator c s :
  Js.includes c s = false -> Js.split c s = [s].
Proof.
  induction s as [|d r IH]; simpl; intros H; [reflexivity|].
  apply orb_false_iff in H as [Hd Hr]. rewrite Hd, (IH Hr). reflexivity.
Qed.

Lemma split_at_separator c a b :
  Js.includes c a = false ->
  Js.split c (a ++ String c b) = a :: Js.split c b.
Proof.
  induction a as [|d r IH]; simpl; intros H.
  - rewrite Ascii.eqb_refl. reflexivity.
  - apply orb_false_iff in H as [Hd Hr]. rewrite Hd, (IH Hr). reflexivity.
Qed.

Lemma includes_separator c a b : Js.includes c (a ++ String c b) = true.
Proof.
  induction a as [|d r IH]; simpl.
  - rewrite Ascii.eqb_refl. reflexivity.
  - rewrite IH. apply orb_true_r.
Qed.

(** ** The ratings criterion *)

Module RatingsFacts.

Import RatingsService.

Lemma clamp_in_domain n :
  Js.isNaN n = false ->
  in_ratings_domain (Js.clamp n DEFAULT_RATINGS_MIN DEFAULT_RATINGS_MAX) = true.
Proof.
  unfold Js.isNaN, PrimFloat.is_nan, Js.clamp, Js.strict_eq, in_ratings_domain,
    Js.ge, Js.le.
  intros H. apply negb_false_iff in H. rewrite H.
  destruct (PrimFloat.leb n DEFAULT_RATINGS_MAX) eqn:Hmax.
  - destruct (PrimFloat.leb DEFAULT_RATINGS_MIN n) eqn:Hmin.
    + rewrite Hmin, Hmax. reflexivity.
    + reflexivity.
  - reflexivity.
Qed.

Lemma clamp_of_domain n :
  in_ratings_domain n = true ->
  Js.clamp n DEFAULT_RATINGS_MIN DEFAULT_RATINGS_MAX = n.
Proof.
  unfold in_ratings_domain, Js.le. intros H.
  apply andb_true_iff in H as [Hmin Hmax].
  destruct (FloatFacts.leb_not_nan _ _ Hmin) as [_ Hn].
  unfold PrimFloat.is_nan in Hn. apply negb_false_iff in Hn.
  unfold Js.clamp, Js.strict_eq, Js.le, Js.ge.
  rewrite Hn, Hmax, Hmin. reflexivity.
Qed.

Lemma decodedBound_in_domain default part :
  in_ratings_domain default = true ->
  in_ratings_domain (decodedBound default part) = true.
Proof.
  intros Hd. unfold decodedBound.
  destruct (Js.isNaN (Js.parseFloat part)) eqn:E; [exact Hd|].
  apply clamp_in_domain. exact E.
Qed.

(** The decoder, by the shape of the persisted string. *)
Lemma convert_range a b :
  Js.includes "-" a = false -> Js.includes "-" b = false ->
  convertRangeQueryParamToValue (Some (a ++ String "-" b)%string) =
  (decodedBound DEFAULT_RATINGS_MIN a, decodedBound DEFAULT_RATINGS_MAX b).
Proof.
  intros Ha Hb. unfold convertRangeQueryParamToValue.
  destruct (a ++ String "-" b)%string eqn:E.
  - destruct a; discriminate E.
  - rewrite <- E. rewrite includes_separator, (split_at_separator _ _ _ Ha),
      (split_without_separator _ _ Hb).
    reflexivity.
Qed.

Lemma convert_bare s :
  s <> EmptyString -> Js.includes "-" s = false ->
  convertRangeQueryParamToValue (Some s) =
  (decodedBound DEFAULT_RATINGS_MIN s, decodedBound DEFAULT_RATINGS_MAX s).
Proof.
  intros Hs Hi. unfold convertRangeQueryParamToValue.
  destruct s as [|c r] eqn:E; [congruence|]. rewrite <- E in *.
  rewrite Hi. change (s ++ "-" ++ s)%string with (s ++ String "-" s)%string.
  rewrite (split_at_separator _ _ _ Hi), (split_without_separator _ _ Hi).
  reflexivity.
Qed.

Lemma convert_in_domain value :
  in_ratings_domain (fst (convertRangeQueryParamToValue value)) = true /\
  in_ratings_domain (snd (convertRangeQueryParamToValue value)) = true.
Proof.
  unfold convertRangeQueryParamToValue.
  destruct value as [[|c r]|]; try (split; reflexivity).
  cbv zeta. split; cbn [fst snd].
  - apply (decodedBound_in_domain DEFAULT_RATINGS_MIN). reflexivity.
  - apply (decodedBound_in_domain DEFAULT_RATINGS_MAX). reflexivity.
Qed.

(** A number above the domain is clamped to its maximum, one below it to
    its minimum. *)
Lemma clamp_above n :
  Js.gt n DEFAULT_RATINGS_MAX = true ->
  Js.clamp n DEFAULT_RATINGS_MIN DEFAULT_RATINGS_MAX = DEFAULT_RATINGS_MAX.
Proof.
  unfold Js.gt. intros H.
  destruct (FloatFacts.leb_not_nan _ _ (FloatFacts.ltb_leb _ _ H)) as [_ Hn].
  unfold PrimFloat.is_nan in Hn. apply negb_false_iff in Hn.
  unfold Js.clamp, Js.strict_eq, Js.le, Js.ge.
  rewrite Hn, (FloatFacts.ltb_leb_false _ _ H). reflexivity.
Qed.

Lemma clamp_below n :
  Js.lt n DEFAULT_RATINGS_MIN = true ->
  Js.clamp n DEFAULT_RATINGS_MIN DEFAULT_RATINGS_MAX = DEFAULT_RATINGS_MIN.
Proof.
  unfold Js.lt. intros H.
  pose proof (FloatFacts.ltb_leb _ _ H) as Hle.
  destruct (FloatFacts.leb_not_nan _ _ Hle) as [Hn _].
  unfold PrimFloat.is_nan in Hn. apply negb_false_iff in Hn.
  assert (Hmax : PrimFloat.leb n DEFAULT_RATINGS_MAX = true).
  { apply (FloatFacts.leb_trans _ _ _ Hle). reflexivity. }
  unfold Js.clamp, Js.strict_eq, Js.le, Js.ge.
  rewrite Hn, Hmax, (FloatFacts.ltb_leb_false _ _ H). reflexivity.
Qed.

(** A number is inside the domain, above it or below it. *)
Lemma domain_cases n :
  Js.isNaN n = false ->
  in_ratings_domain n = true
  \/ Js.gt n DEFAULT_RATINGS_MAX = true
  \/ Js.lt n DEFAULT_RATINGS_MIN = true.
Proof.
  unfold Js.isNaN, in_ratings_domain, Js.le, Js.gt, Js.lt. intros Hn.
  destruct (PrimFloat.leb DEFAULT_RATINGS_MIN n) eqn:Hmin.
  - destruct (PrimFloat.leb n DEFAULT_RATINGS_MAX) eqn:Hmax.
    + left. reflexivity.
    + right. left. apply FloatFacts.leb_false_ltb; [exact Hn|reflexivity|exact Hmax].
  - right. right.
    apply FloatFacts.leb_false_ltb; [reflexivity|exact Hn|exact Hmin].
Qed.

Lemma gt_not_nan n bound : Js.gt n bound = true -> Js.isNaN n = false.
Proof.
  unfold Js.gt, Js.isNaN. intros H.
  exact (proj2 (FloatFacts.leb_not_nan _ _ (FloatFacts.ltb_leb _ _ H))).
Qed.

Lemma lt_not_nan n bound : Js.lt n bound = true -> Js.isNaN n = false.
Proof.
  unfold Js.lt, Js.isNaN. intros H.
  exact (proj1 (FloatFacts.leb_not_nan _ _ (FloatFacts.ltb_leb _ _ H))).
Qed.

Lemma in_domain_not_nan n : in_ratings_domain n = true -> Js.isNaN n = false.
Proof.
  unfold in_ratings_domain, Js.le, Js.isNaN. intros H.
  apply andb_true_iff in H as [H _].
  exact (proj2 (FloatFacts.leb_not_nan _ _ H)).
Qed.

Lemma decodedBound_above default part :
  Js.gt (Js.parseFloat part) DEFAULT_RATINGS_MAX = true ->
  decodedBound default part = DEFAULT_RATINGS_MAX.
Proof.
  intros H. unfold decodedBound. rewrite (gt_not_nan _ _ H).
  apply clamp_above. exact H.
Qed.

Lemma decodedBound_below default part :
  Js.lt (Js.parseFloat part) DEFAULT_RATINGS_MIN = true ->
  decodedBound default part = DEFAULT_RATINGS_MIN.
Proof.
  intros H. unfold decodedBound. rewrite (lt_not_nan _ _ H).
  apply clamp_below. exact H.
Qed.

Lemma decodedBound_inside default part :
  in_ratings_domain (Js.parseFloat part) = true ->
  decodedBound default part = Js.parseFloat part.
Proof.
  intros H. unfold decodedBound. rewrite (in_domain_not_nan _ H).
  apply clamp_of_domain. exact H.
Qed.

End RatingsFacts.

(** ** Claims on the ratings criterion *)

Import RatingsService.

(** C1. Decoding a persisted ratings value is total and follows the codec
    law: a missing value, the empty string and ["foo"] decode to the
    default [[1, 10]]; ["7-9"] decodes to [[7, 9]]; a bare ["n"] (a string
    without ["-"]) whose number lies in the domain decodes to [[n, n]], and
    in general to its number clamped on both sides, or to the default when
    it is not a number; in ["a-b"] a part that is not a number falls back
    to the default bound of its side and a part that is a number is
    clamped into [[1, 10]]; whatever the string, both decoded bounds lie
    in [[1, 10]]. Clamped means: a number within [[1, 10]] is kept, a
    number above [10] becomes [10] and a number below [1] becomes [1], and
    every number is in one of these cases; so ["9-15"] decodes to
    [[9, 10]], ["0-15"] to [[1, 10]], ["15"] to [[10, 10]] and ["0.5"] to
    [[1, 1]]. A leading ["-"] is the separator: ["-5"] has no first part
    and decodes to [[1, 5]]. *)
Theorem ratings_decode_codec_law :
  convertRangeQueryParamToValue None = (1%float, 10%float)
  /\ convertRangeQueryParamToValue (Some EmptyString) = (1%float, 10%float)
  /\ convertRangeQueryParamToValue (Some "foo"%string) = (1%float, 10%float)
  /\ convertRangeQueryParamToValue (Some "7-9"%string) = (7%float, 9%float)
  /\ (forall s n,
        s <> EmptyString -> Js.includes "-" s = false ->
        Js.parseFloat s = n -> in_ratings_domain n = true ->
        convertRangeQueryParamToValue (Some s) = (n, n))
  /\ (forall s,
        s <> EmptyString -> Js.includes "-" s = false ->
        (Js.isNaN (Js.parseFloat s) = true ->
         convertRangeQueryParamToValue (Some s) = (1%float, 10%float))
        /\ (Js.isNaN (Js.parseFloat s) = false ->
            convertRangeQueryParamToValue (Some s) =
            (Js.clamp (Js.parseFloat s) 1%float 10%float,
             Js.clamp (Js.parseFloat s) 1%float 10%float)))
  /\ (forall a b,
        Js.includes "-" a = false -> Js.includes "-" b = false ->
        let decoded :=
          convertRangeQueryParamToValue (Some (a ++ "-" ++ b)%string) in
        (Js.isNaN (Js.parseFloat a) = true -> fst decoded = 1%float)
        /\ (Js.isNaN (Js.parseFloat b) = true -> snd decoded = 10%float)
        /\ (Js.isNaN (Js.parseFloat a) = false ->
            fst decoded = Js.clamp (Js.parseFloat a) 1%float 10%float)
        /\ (Js.isNaN (Js.parseFloat b) = false ->
            snd decoded = Js.clamp (Js.parseFloat b) 1%float 10%float))
  /\ (forall n,
        Js.isNaN n = false ->
        in_ratings_domain (Js.clamp n 1%float 10%float) = true)
  /\ (forall value,
        in_ratings_domain (fst (convertRangeQueryParamToValue value)) = true
        /\ in_ratings_domain (snd (convertRangeQueryParamToValue value)) = true)
  /\ (forall n,
        (in_ratings_domain n = true -> Js.clamp n 1%float 10%float = n)
        /\ (Js.gt n 10%float = true ->
            Js.clamp n 1%float 10%float = 10%float)
        /\ (Js.lt n 1%float = true -> Js.clamp n 1%float 10%float = 1%float))
  /\ (forall n,
        Js.isNaN n = false ->
        in_ratings_domain n = true
        \/ Js.gt n 10%float = true
        \/ Js.lt n 1%float = true)
  /\ (forall a b,
        Js.includes "-" a = false -> Js.includes "-" b = false ->
        let decoded :=
          convertRangeQueryParamToValue (Some (a ++ "-" ++ b)%string) in
        (in_ratings_domain (Js.parseFloat a) = true ->
         fst decoded = Js.parseFloat a)
        /\ (Js.gt (Js.parseFloat a) 10%float = true -> fst decoded = 10%float)
        /\ (Js.lt (Js.parseFloat a) 1%float = true -> fst decoded = 1%float)
        /\ (in_ratings_domain (Js.parseFloat b) = true ->
            snd decoded = Js.parseFloat b)
        /\ (Js.gt (Js.parseFloat b) 10%float = true -> snd decoded = 10%float)
        /\ (Js.lt (Js.parseFloat b) 1%float = true -> snd decoded = 1%float))
  /\ (forall s,
        s <> EmptyString -> Js.includes "-" s = false ->
        (Js.gt (Js.parseFloat s) 10%float = true ->
         convertRangeQueryParamToValue (Some s) = (10%float, 10%float))
        /\ (Js.lt (Js.parseFloat s) 1%float = true ->
            convertRangeQueryParamToValue (Some s) = (1%float, 1%float)))
  /\ convertRangeQueryParamToValue (Some "9-15"%string) = (9%float, 10%float)
  /\ convertRangeQueryParamToValue (Some "0-15"%string) = (1%float, 10%float)
  /\ convertRangeQueryParamToValue (Some "15"%string) = (10%float, 10%float)
  /\ convertRangeQueryParamToValue (Some "0.5"%string) = (1%float, 1%float)
  /\ convertRangeQueryParamToValue (Some "-5"%string) = (1%float, 5%float).
Proof.
  assert (Hclamp : forall n,
             (in_ratings_domain n = true -> Js.clamp n 1%float 10%float = n)
             /\ (Js.gt n 10%float = true ->
                 Js.clamp n 1%float 10%float = 10%float)
             /\ (Js.lt n 1%float = true ->
                 Js.clamp n 1%float 10%float = 1%float)).
  { intros n. split; [apply RatingsFacts.clamp_of_domain|].
    split; [apply RatingsFacts.clamp_above | apply RatingsFacts.clamp_below]. }
  assert (Hparts : forall a b,
             Js.includes "-" a = false -> Js.includes "-" b = false ->
             let decoded :=
               convertRangeQueryParamToValue (Some (a ++ "-" ++ b)%string) in
             (in_ratings_domain (Js.parseFloat a) = true ->
              fst decoded = Js.parseFloat a)
             /\ (Js.gt (Js.parseFloat a) 10%float = true ->
                 fst decoded = 10%float)
             /\ (Js.lt (Js.parseFloat a) 1%float = true ->
                 fst decoded = 1%float)
             /\ (in_ratings_domain (Js.parseFloat b) = true ->
                 snd decoded = Js.parseFloat b)
             /\ (Js.gt (Js.parseFloat b) 10%float = true ->
                 snd decoded = 10%float)
             /\ (Js.lt (Js.parseFloat b) 1%float = true ->
                 snd decoded = 1%float)).
  { intros a b Ha Hb. cbv zeta.
    change (a ++ "-" ++ b)%string with (a ++ String "-" b)%string.
    rewrite (RatingsFacts.convert_range a b Ha Hb). cbn [fst snd].
    repeat split; intros H.
    - apply RatingsFacts.decodedBound_inside. exact H.
    - apply RatingsFacts.decodedBound_above. exact H.
    - apply RatingsFacts.decodedBound_below. exact H.
    - apply RatingsFacts.decodedBound_inside. exact H.
    - apply RatingsFacts.decodedBound_above. exact H.
    - apply RatingsFacts.decodedBound_below. exact H. }
  assert (Hbare : forall s,
             s <> EmptyString -> Js.includes "-" s = false ->
             (Js.gt (Js.parseFloat s) 10%float = true ->
              convertRangeQueryParamToValue (Some s) = (10%float, 10%float))
             /\ (Js.lt (Js.parseFloat s) 1%float = true ->
                 convertRangeQueryParamToValue (Some s)
                 = (1%float, 1%float))).
  { intros s Hs Hi. rewrite (RatingsFacts.convert_bare s Hs Hi).
    split; intros H.
    - rewrite !(RatingsFacts.decodedBound_above _ s H). reflexivity.
    - rewrite !(RatingsFacts.decodedBound_below _ s H). reflexivity. }
  repeat match goal with
         | |- _ /\ _ => split
         end;
    try reflexivity; try exact Hclamp; try exact Hparts; try exact Hbare;
    try exact RatingsFacts.domain_cases; try exact RatingsFacts.clamp_in_domain.
  - intros s n Hs Hi Hn Hd. rewrite (RatingsFacts.convert_bare s Hs Hi).
    rewrite <- Hn in Hd.
    rewrite !(RatingsFacts.decodedBound_inside _ s Hd), Hn. reflexivity.
  - intros s Hs Hi. rewrite (RatingsFacts.convert_bare s Hs Hi).
    unfold decodedBound. split; intros E; rewrite E; reflexivity.
  - intros a b Ha Hb. cbv zeta.
    change (a ++ "-" ++ b)%string with (a ++ String "-" b)%string.
    rewrite (RatingsFacts.convert_range a b Ha Hb). unfold decodedBound.
    cbn [fst snd].
    repeat split; intros E; rewrite E; reflexivity.
  - apply RatingsFacts.convert_in_domain.
Qed.

(** The bare string ["8.5"] decodes to [[8.5, 8.5]]. *)
Lemma ratings_decode_codec_law_witness :
  convertRangeQueryParamToValue (Some "8.5"%string) = (8.5%float, 8.5%float).
Proof.
  refine (proj1 (proj2 (proj2 (proj2 (proj2 ratings_decode_codec_law))))
            "8.5"%string 8.5%float _ _ _ _).
  - discriminate.
  - reflexivity.
  - reflexivity.
  - reflexivity.
Defined.

(** C2, as stated, fails: the decoder takes ["9-7"] to [[9, 7]], whose
    minimum exceeds its maximum, and [getReducedState] stores the payload
    [[20, -3]] as it is, outside the domain and out of order. *)
Lemma ratings_invariant_counterexample :
  ratings_invariant (getInitialState (fun _ => Some "9-7"%string)) = false
  /\ ratings_invariant
       (ratingsRange (getReducedState Sample.state (20%float, (-3)%float)))
     = false.
Proof. split; reflexivity. Qed.

(** C2, amended. For every persisted value, both bounds of
    [getInitialState()] lie in [[1, 10]]; [getReducedState] does not clamp:
    the ratings range of the state it returns is the payload pair itself,
    so that it satisfies the invariant exactly when the payload does. *)
Theorem ratings_range_bounds :
  (forall getQueryParamValue : string -> option string,
      in_ratings_domain (fst (getInitialState getQueryParamValue)) = true
      /\ in_ratings_domain (snd (getInitialState getQueryParamValue)) = true)
  /\ (forall state payload,
        ratingsRange (getReducedState state payload) = payload
        /\ ratings_invariant (ratingsRange (getReducedState state payload))
           = ratings_invariant payload).
Proof.
  split.
  - intros q. unfold getInitialState. apply RatingsFacts.convert_in_domain.
  - intros state [lo hi]. split; reflexivity.
Qed.

(** C6. [isWithinRange(state)(game)] is true exactly when the selected
    rating lies within the inclusive interval [state.ratingsRange]: the
    user rating in mode [USER_RATING], the average rating in the other
    modes, and the domain minimum [1] in place of a user rating that is not
    a number. *)
Theorem ratings_isWithinRange_spec :
  forall (R : Type) (state : CollectionFilterState) (game : Game R),
    let within (rating : Js.number) :=
      Js.le (fst (ratingsRange state)) rating = true
      /\ Js.le rating (snd (ratingsRange state)) = true in
    (showRatings state = USER_RATING ->
     forall x, userRating game = Num x ->
       (isWithinRange state game = true <-> within x))
    /\ (showRatings state = USER_RATING ->
        forall s, userRating game = Str s ->
          (isWithinRange state game = true <-> within 1%float))
    /\ (showRatings state <> USER_RATING ->
        (isWithinRange state game = true <-> within (averageRating game))).
Proof.
  intros R state game. cbv zeta.
  unfold isWithinRange, SliderUtils.isBoardGameRangeWithinFilterRange.
  destruct (ratingsRange state) as [lo hi]. cbn [fst snd].
  repeat split; intros; try (rewrite H in *); try (rewrite H0 in *);
    cbn [ShowRatings_eqb] in *; try (apply andb_true_iff; assumption);
    try (apply andb_true_iff in H1; tauto);
    destruct (showRatings state); try congruence;
    cbn [ShowRatings_eqb] in *;
    first [ apply andb_true_iff; assumption | apply andb_true_iff in H0; tauto ].
Qed.

(** In mode [AVERAGE_RATING] with the range [[1, 10]], a game rated [7.5]
    on average is within range. *)
Lemma ratings_isWithinRange_spec_witness :
  isWithinRange Sample.state Sample.azul = true.
Proof.
  refine (proj2 (proj2 (proj2 (ratings_isWithinRange_spec
                                 PollEntry Sample.state Sample.azul)) _) _).
  - discriminate.
  - split; reflexivity.
Defined.

(** C8. [getReducedState(state, payload)] returns a state whose
    [ratingsRange] is the payload pair and whose every other field is that
    of the input state. *)
Theorem ratings_getReducedState_frame :
  forall (state : CollectionFilterState) (payload : Range),
    let state' := getReducedState state payload in
    ratingsRange state' = payload
    /\ username state' = username state
    /\ playerCountRange state' = playerCountRange state
    /\ playtimeRange state' = playtimeRange state
    /\ complexityRange state' = complexityRange state
    /\ showRatings state' = showRatings state
    /\ showExpansions state' = showExpansions state
    /\ showInvalidPlayerCount state' = showInvalidPlayerCount state
    /\ showNotRecommended state' = showNotRecommended state
    /\ isDebug state' = isDebug state.
Proof.
  intros state [minRange maxRange]. cbv zeta. repeat split.
Qed.

(** ** [Array.prototype.sort] *)


Section SortFacts.

Context {A : Type}.
Variable comparefn : A -> A -> Js.number.

Lemma sort_insert_perm x l : Permutation (sort_insert comparefn x l) (x :: l).
Proof.
  induction l as [|y l IH]; simpl; [reflexivity|].
  destruct (Js.gt (comparefn x y) 0%float); [|reflexivity].
  rewrite IH. apply perm_swap.
Qed.

Lemma array_sort_perm l : Permutation (array_sort comparefn l) l.
Proof.
  induction l as [|x l IH]; simpl; [reflexivity|].
  rewrite sort_insert_perm. constructor. exact IH.
Qed.

Lemma array_sort_In x l : In x (array_sort comparefn l) <-> In x l.
Proof.
  split; apply Permutation_in;
    [apply array_sort_perm | symmetry; apply array_sort_perm].
Qed.

(** Sortedness for an order [R] that the comparator decides on the
    elements that satisfy [P]. *)
Variable R : A -> A -> Prop.
Variable P : A -> Prop.

Hypothesis moved_behind :
  forall x y, P x -> P y -> Js.gt (comparefn x y) 0%float = true -> R y x.
Hypothesis kept_in_front :
  forall x y, P x -> P y -> Js.gt (comparefn x y) 0%float = false -> R x y.
Hypothesis R_trans :
  forall x y z, P x -> P y -> P z -> R x y -> R y z -> R x z.



End SortFacts.

(** ** The pipeline *)

Module PipelineFacts.

Import CollectionFilters.

Lemma fst_bind {X Y : Type} (m : Logged X) (f : X -> Logged Y) :
  fst (bind m f) = fst (f (fst m)).
Proof. unfold bind. destruct m as [x out]. simpl. destruct (f x). reflexivity. Qed.

(** The debug tap hands every game on unchanged. *)
Lemma tap_from {R : Type} filterState groupLabel (array : list (Game R)) :
  forall rest index,
    fst (array_map_from (maybeOutputList filterState groupLabel)
           array index rest) = rest.
Proof.
  induction rest as [|x rest IH]; intros index; cbn [array_map_from];
    [reflexivity|].
  rewrite fst_bind. cbn [maybeOutputList fst]. rewrite fst_bind, IH.
  reflexivity.
Qed.

Lemma tap {R : Type} filterState groupLabel (array : list (Game R)) :
  fst (array_map (maybeOutputList filterState groupLabel) array) = array.
Proof. apply tap_from. Qed.

(** In debug mode or not, the result of the chain is the sort of what the
    stages let through. *)
Lemma apply_result pc pt cx lc filterState games :
  fst (applyFiltersAndSorts pc pt cx lc filterState (Some games)) =
  Some (array_sort (maybeSortByScore lc filterState)
          (filter (maybeShowNotRecommended filterState)
             (annotatedStage pc pt cx filterState games))).
Proof.
  unfold applyFiltersAndSorts, annotatedStage, criteriaStages.
  repeat (rewrite fst_bind, tap). reflexivity.
Qed.

(** Passing the not-recommended stage. *)
Lemma maybeShowNotRecommended_iff state (game : BoardGame) :
  maybeShowNotRecommended state game = true
  <-> (showNotRecommended state = true
       \/ showInvalidPlayerCount state = true
       \/ exists rec : AnnotatedPollEntry,
           In rec (recommendedPlayerCount game)
           /\ isPlayerCountWithinRange rec = true
           /\ (Js.le (NotRecommendedPercent rec) 50%float = true
               \/ Js.isNaN (NotRecommendedPercent rec) = true)).
Proof.
  unfold maybeShowNotRecommended.
  destruct (showNotRecommended state); [cbn; tauto|].
  destruct (showInvalidPlayerCount state); [cbn; tauto|].
  cbn [orb].
  set (keep := fun rec : AnnotatedPollEntry =>
                 isPlayerCountWithinRange rec
                 && (Js.le (NotRecommendedPercent rec) 50%float
                     || Js.isNaN (NotRecommendedPercent rec))).
  split.
  - intros H. right. right.
    destruct (filter keep (recommendedPlayerCount game)) as [|rec rest] eqn:E;
      [discriminate H|].
    assert (Hin : In rec (filter keep (recommendedPlayerCount game)))
      by (rewrite E; left; reflexivity).
    apply filter_In in Hin as [Hin Hk]. unfold keep in Hk.
    apply andb_true_iff in Hk as [Hw Hn]. apply orb_true_iff in Hn.
    exists rec. auto.
  - intros [H|[H|(rec & Hin & Hw & Hn)]]; try discriminate H.
    assert (Hk : In rec (filter keep (recommendedPlayerCount game))).
    { apply filter_In. split; [exact Hin|]. unfold keep.
      rewrite Hw. apply orb_true_iff in Hn. rewrite Hn. reflexivity. }
    destruct (filter keep (recommendedPlayerCount game));
      [destruct Hk | reflexivity].
Qed.

End PipelineFacts.

Module SortStageFacts.

Import CollectionFilters.

Lemma maybeSortByScore_by_score lc filterState a b :
  isDefaultPlayerCountRange filterState = false ->
  maybeSortByScore lc filterState a b =
  PrimFloat.sub (scoreSum filterState b) (scoreSum filterState a).
Proof.
  unfold isDefaultPlayerCountRange, maybeSortByScore, scoreSum,
    Js.strict_neq, Js.strict_eq.
  destruct (playerCountRange filterState) as [lo hi]. cbn [fst snd].
  intros H. rewrite <- negb_andb, H. reflexivity.
Qed.





End SortStageFacts.

(** ** Claims on the pipeline *)




(** C4. In the not-recommended stage, every item passes when
    [showNotRecommended] or [showInvalidPlayerCount] is set; otherwise an
    item passes exactly when at least one of its poll entries marked
    [isPlayerCountWithinRange] has [NotRecommendedPercent <= 50] or
    [NotRecommendedPercent = NaN]. The output of the chain is made of the
    annotated items that pass. In particular an item whose sole in-range
    entry has [NaN] is retained when [showNotRecommended] is false. *)
Theorem not_recommended_stage :
  (forall (state : CollectionFilterState) (game : BoardGame),
      CollectionFilters.maybeShowNotRecommended state game = true
      <-> (showNotRecommended state = true
           \/ showInvalidPlayerCount state = true
           \/ exists rec : AnnotatedPollEntry,
               In rec (recommendedPlayerCount game)
               /\ isPlayerCountWithinRange rec = true
               /\ (Js.le (NotRecommendedPercent rec) 50%float = true
                   \/ Js.isNaN (NotRecommendedPercent rec) = true)))
  /\ (forall pc pt cx localeCompare state games,
        exists out,
          fst (CollectionFilters.applyFiltersAndSorts pc pt cx localeCompare
                 state (Some games)) = Some out
          /\ forall game,
               In game out
               <-> (In game (CollectionFilters.annotatedStage pc pt cx
                               state games)
                    /\ CollectionFilters.maybeShowNotRecommended state game
                       = true))
  /\ (forall (state : CollectionFilterState) (game : BoardGame)
             (sole : AnnotatedPollEntry),
        showNotRecommended state = false ->
        filter isPlayerCountWithinRange (recommendedPlayerCount game) = [sole] ->
        Js.isNaN (NotRecommendedPercent sole) = true ->
        CollectionFilters.maybeShowNotRecommended state game = true).
Proof.
  pose proof PipelineFacts.maybeShowNotRecommended_iff as Hpass.
  split; [exact Hpass|]. split.
  - intros pc pt cx lc state games.
    rewrite PipelineFacts.apply_result. eexists. split; [reflexivity|].
    intros game. rewrite array_sort_In, filter_In. tauto.
  - intros state game sole Hshow Hsole Hnan. apply Hpass. right. right.
    assert (Hin : In sole (filter isPlayerCountWithinRange
                             (recommendedPlayerCount game)))
      by (rewrite Hsole; left; reflexivity).
    apply filter_In in Hin as [Hin Hw]. exists sole. auto.
Qed.

(** The sample game whose only poll entry has no votes is retained at the
    default state. *)
Lemma not_recommended_stage_witness :
  CollectionFilters.maybeShowNotRecommended Sample.state
    (CollectionFilters.addIsPlayerCountWithinRange Sample.state Sample.nodata)
  = true.
Proof.
  refine (proj2 (proj2 not_recommended_stage) Sample.state _
            {| entry := Sample.poll 2%float 0%float PrimFloat.nan;
               isPlayerCountWithinRange := true |} _ _ _);
    reflexivity.
Defined.

(** C10. On an absent [games] argument the chain does not run: every
    state gives the absent result and no console output; on the empty
    array it gives the empty array. *)
Theorem apply_absent_or_empty :
  forall pc pt cx localeCompare (state : CollectionFilterState),
    CollectionFilters.applyFiltersAndSorts pc pt cx localeCompare state None
    = (None, [])
    /\ CollectionFilters.applyFiltersAndSorts pc pt cx localeCompare state
         (Some []) = (Some [], []).
Proof. intros. split; reflexivity. Qed.

(** ** Widening a range *)

Module MonotonicityFacts.

Import CollectionFilters.

(** The interval test is monotone in the filter range. *)
Lemma overlap_widen boardgameRange narrow wide :
  range_contains wide narrow = true ->
  SliderUtils.isBoardGameRangeWithinFilterRange boardgameRange narrow = true ->
  SliderUtils.isBoardGameRangeWithinFilterRange boardgameRange wide = true.
Proof.
  unfold range_contains, SliderUtils.isBoardGameRangeWithinFilterRange, Js.le.
  destruct boardgameRange as [bmin bmax], narrow as [nmin nmax],
    wide as [wmin wmax]. cbn [fst snd].
  intros Hc Hn. apply andb_true_iff in Hc as [Hlo Hhi].
  apply andb_true_iff in Hn as [Hn1 Hn2]. apply andb_true_iff. split.
  - exact (FloatFacts.leb_trans _ _ _ Hlo Hn1).
  - exact (FloatFacts.leb_trans _ _ _ Hn2 Hhi).
Qed.

Section Widen.

Variable c : Criterion.
Variable state : CollectionFilterState.
Variable wide : Range.
Hypothesis contains : range_contains wide (getRange c state) = true.

Lemma widen_flags :
  showExpansions (setRange c wide state) = showExpansions state
  /\ showInvalidPlayerCount (setRange c wide state)
     = showInvalidPlayerCount state
  /\ showNotRecommended (setRange c wide state) = showNotRecommended state
  /\ showRatings (setRange c wide state) = showRatings state.
Proof. destruct c, wide; repeat split. Qed.

Lemma widen_maybeShowExpansions game :
  maybeShowExpansions (setRange c wide state) game
  = maybeShowExpansions state game.
Proof.
  unfold maybeShowExpansions.
  destruct widen_flags as (-> & _). reflexivity.
Qed.

Lemma widen_maybeShowInvalidPlayerCount game :
  maybeShowInvalidPlayerCount (setRange c wide state) game
  = maybeShowInvalidPlayerCount state game.
Proof.
  unfold maybeShowInvalidPlayerCount.
  destruct widen_flags as (_ & -> & _). reflexivity.
Qed.

Lemma getRange_setRange c' :
  getRange c' (setRange c wide state)
  = if Criterion_eqb c c' then wide else getRange c' state.
Proof. destruct c, c', wide; reflexivity. Qed.

Lemma widen_overlap c' boardgameRange :
  SliderUtils.isBoardGameRangeWithinFilterRange boardgameRange
    (getRange c' state) = true ->
  SliderUtils.isBoardGameRangeWithinFilterRange boardgameRange
    (getRange c' (setRange c wide state)) = true.
Proof.
  rewrite getRange_setRange.
  destruct c, c'; cbn [Criterion_eqb]; auto; apply overlap_widen;
    exact contains.
Qed.

Lemma widen_playerCount game :
  SpecModelled.playerCount_isWithinRange state game = true ->
  SpecModelled.playerCount_isWithinRange (setRange c wide state) game = true.
Proof. exact (widen_overlap PlayerCount _). Qed.

Lemma widen_playtime game :
  SpecModelled.playtime_isWithinRange state game = true ->
  SpecModelled.playtime_isWithinRange (setRange c wide state) game = true.
Proof. exact (widen_overlap Playtime _). Qed.

Lemma widen_complexity game :
  SpecModelled.complexity_isWithinRange state game = true ->
  SpecModelled.complexity_isWithinRange (setRange c wide state) game = true.
Proof. exact (widen_overlap Complexity _). Qed.

Lemma widen_ratings (game : SimpleBoardGame) :
  RatingsService.isWithinRange state game = true ->
  RatingsService.isWithinRange (setRange c wide state) game = true.
Proof.
  unfold RatingsService.isWithinRange.
  destruct widen_flags as (_ & _ & _ & ->).
  exact (widen_overlap Ratings _).
Qed.

Lemma widen_criteriaStages games game :
  In game
    (criteriaStages SpecModelled.playerCount_isWithinRange
       SpecModelled.playtime_isWithinRange
       SpecModelled.complexity_isWithinRange state games) ->
  In game
    (criteriaStages SpecModelled.playerCount_isWithinRange
       SpecModelled.playtime_isWithinRange
       SpecModelled.complexity_isWithinRange (setRange c wide state) games).
Proof.
  unfold criteriaStages. rewrite !filter_In, !in_map_iff.
  intros (((((g & Hg & Hin) & Hpc) & Hpt) & Hcx) & Hr).
  rewrite filter_In in Hin. destruct Hin as [Hin Hexp].
  repeat split.
  - exists g. rewrite widen_maybeShowInvalidPlayerCount. split; [exact Hg|].
    apply filter_In. rewrite widen_maybeShowExpansions. auto.
  - apply widen_playerCount. exact Hpc.
  - apply widen_playtime. exact Hpt.
  - apply widen_complexity. exact Hcx.
  - apply widen_ratings. exact Hr.
Qed.

(** The annotation of the wider range marks every entry that the
    narrower one marks. *)
Lemma widen_annotation (rec : PollEntry) :
  (let '(lo, hi) := playerCountRange state in
   Js.le lo (playerCountValue rec) && Js.le (playerCountValue rec) hi) = true ->
  (let '(lo, hi) := playerCountRange (setRange c wide state) in
   Js.le lo (playerCountValue rec) && Js.le (playerCountValue rec) hi) = true.
Proof.
  pose proof (widen_overlap PlayerCount
                (playerCountValue rec, playerCountValue rec)) as H.
  unfold SliderUtils.isBoardGameRangeWithinFilterRange in H.
  cbn [getRange] in H.
  destruct (playerCountRange state) as [lo hi].
  destruct (playerCountRange (setRange c wide state)) as [lo' hi'].
  exact H.
Qed.

Lemma widen_maybeShowNotRecommended game :
  maybeShowNotRecommended state (addIsPlayerCountWithinRange state game)
  = true ->
  maybeShowNotRecommended (setRange c wide state)
    (addIsPlayerCountWithinRange (setRange c wide state) game) = true.
Proof.
  rewrite !PipelineFacts.maybeShowNotRecommended_iff.
  destruct widen_flags as (_ & -> & -> & _).
  intros [H|[H|(rec & Hin & Hw & Hn)]]; auto. right. right.
  pose proof (widen_annotation (entry rec)) as Hwide.
  unfold addIsPlayerCountWithinRange in *.
  destruct (playerCountRange state) as [lo hi].
  destruct (playerCountRange (setRange c wide state)) as [lo' hi'].
  cbn [recommendedPlayerCount with_recommendedPlayerCount] in *.
  apply in_map_iff in Hin as (r & <- & Hr). cbn [isPlayerCountWithinRange entry] in *.
  exists {| entry := r;
            isPlayerCountWithinRange :=
              Js.le lo' (playerCountValue r) && Js.le (playerCountValue r) hi' |}.
  split; [|split].
  - apply in_map_iff. exists r. auto.
  - cbn. apply Hwide. exact Hw.
  - exact Hn.
Qed.

End Widen.

Lemma forget_annotated state (game : SimpleBoardGame) :
  forget (addIsPlayerCountWithinRange state game) = game.
Proof.
  unfold forget, addIsPlayerCountWithinRange.
  destruct (playerCountRange state) as [lo hi]. destruct game.
  unfold with_recommendedPlayerCount. cbn. f_equal.
  rewrite map_map. cbn. apply map_id.
Qed.

End MonotonicityFacts.

(** C5. Filter monotonicity, with the membership tests of the absent
    controls as the spec gives them. Let two states differ only in the
    range of one criterion, the second range containing the first. Both
    runs of the chain return a list, and every item in the result under the
    narrower range is in the result under the wider one, as the same
    collection item, whatever its position and annotations; put the other
    way, a collection item that is not in the wider result is not in the
    narrower one. *)
Theorem filter_monotonicity :
  forall (localeCompare : string -> string -> Js.number) (c : Criterion)
         (state : CollectionFilterState) (wide : Range)
         (games : list SimpleBoardGame),
    range_contains wide (getRange c state) = true ->
    exists narrowOut wideOut,
      fst (SpecModelled.applyFiltersAndSorts localeCompare state (Some games))
      = Some narrowOut
      /\ fst (SpecModelled.applyFiltersAndSorts localeCompare
                (setRange c wide state) (Some games)) = Some wideOut
      /\ (forall g, In g narrowOut ->
            exists g', In g' wideOut /\ forget g' = forget g)
      /\ (forall item : SimpleBoardGame,
            ~ In item (map forget wideOut) -> ~ In item (map forget narrowOut)).
Proof.
  intros lc c state wide games Hc.
  unfold SpecModelled.applyFiltersAndSorts.
  rewrite !PipelineFacts.apply_result. eexists. eexists.
  split; [reflexivity|]. split; [reflexivity|].
  assert (Hmono : forall g,
             In g (array_sort (CollectionFilters.maybeSortByScore lc state)
                     (filter (CollectionFilters.maybeShowNotRecommended state)
                        (CollectionFilters.annotatedStage
                           SpecModelled.playerCount_isWithinRange
                           SpecModelled.playtime_isWithinRange
                           SpecModelled.complexity_isWithinRange state games))) ->
             exists g',
               In g' (array_sort
                        (CollectionFilters.maybeSortByScore lc
                           (setRange c wide state))
                        (filter (CollectionFilters.maybeShowNotRecommended
                                   (setRange c wide state))
                           (CollectionFilters.annotatedStage
                              SpecModelled.playerCount_isWithinRange
                              SpecModelled.playtime_isWithinRange
                              SpecModelled.complexity_isWithinRange
                              (setRange c wide state) games)))
               /\ forget g' = forget g).
  { intros g Hg. apply array_sort_In in Hg. apply filter_In in Hg as [Hg Hnr].
    unfold CollectionFilters.annotatedStage in Hg.
    apply in_map_iff in Hg as (x & <- & Hx).
    exists (CollectionFilters.addIsPlayerCountWithinRange
              (setRange c wide state) x).
    split.
    - apply array_sort_In. apply filter_In. split.
      + unfold CollectionFilters.annotatedStage. apply in_map.
        apply MonotonicityFacts.widen_criteriaStages; assumption.
      + apply MonotonicityFacts.widen_maybeShowNotRecommended; assumption.
    - rewrite !MonotonicityFacts.forget_annotated. reflexivity. }
  split; [exact Hmono|].
  intros item Hwide Hnarrow. apply Hwide.
  apply in_map_iff in Hnarrow as (g & <- & Hg).
  destruct (Hmono g Hg) as (g' & Hg' & <-). apply in_map. exact Hg'.
Qed.

(** Widening the player-count range [[3, 3]] of the sample state to
    [[2, 4]]. *)
Lemma filter_monotonicity_witness :
  exists narrowOut wideOut,
    fst (SpecModelled.applyFiltersAndSorts SpecModelled.codeUnitCompare
           Sample.three (Some Sample.games)) = Some narrowOut
    /\ fst (SpecModelled.applyFiltersAndSorts SpecModelled.codeUnitCompare
              (setRange PlayerCount (2%float, 4%float) Sample.three)
              (Some Sample.games)) = Some wideOut
    /\ (forall g, In g narrowOut ->
          exists g', In g' wideOut /\ forget g' = forget g)
    /\ (forall item : SimpleBoardGame,
          ~ In item (map forget wideOut) -> ~ In item (map forget narrowOut)).
Proof.
  exact (filter_monotonicity SpecModelled.codeUnitCompare PlayerCount
           Sample.three (2%float, 4%float) Sample.games eq_refl).
Defined.

(** ** Claims on the reducer *)

Module ReducerFacts.

Import CollectionFilters.

Lemma maybeSetQueryParam_unnamed controls state b :
  username state = EmptyString -> maybeSetQueryParam controls state b = b.
Proof. unfold maybeSetQueryParam. intros ->. reflexivity. Qed.

Lemma maybeSetQueryParam_named controls state b :
  username state <> EmptyString ->
  List.length (history (maybeSetQueryParam controls state b))
  = S (List.length (history b)).
Proof.
  unfold maybeSetQueryParam, pushState. intros H.
  destruct (username state); [congruence|].
  cbn [history]. rewrite length_app. cbn. lia.
Qed.

End ReducerFacts.

(** C7. The sync step is gated on the username: for a state whose
    username is the empty string it writes nothing, the location and the
    history are left as they were, and no error is raised; the reducer
    still returns the state that the handler of the action produced. *)
Theorem sync_gated_on_username :
  forall controls : CollectionFilters.Controls,
    (forall state b,
        username state = EmptyString ->
        CollectionFilters.maybeSetQueryParam controls state b = b)
    /\ (forall state action b,
          username (CollectionFilters.actions controls state action)
          = EmptyString ->
          CollectionFilters.reducer controls state action b
          = (CollectionFilters.actions controls state action, b))
    /\ (forall state action b,
          fst (CollectionFilters.reducer controls state action b)
          = CollectionFilters.actions controls state action).
Proof.
  intros controls. repeat split.
  - intros state b H. apply ReducerFacts.maybeSetQueryParam_unnamed. exact H.
  - intros state action b H. unfold CollectionFilters.reducer.
    rewrite (ReducerFacts.maybeSetQueryParam_unnamed _ _ _ H). reflexivity.
Qed.

(** Without a username, setting the ratings range to [[7, 9]] changes the
    state and leaves the page as it was. *)
Lemma sync_gated_on_username_witness :
  CollectionFilters.reducer SpecModelled.controls Sample.state
    (CollectionFilters.SET_RATINGS (7%float, 9%float)) Sample.browser
  = (RatingsService.getReducedState Sample.state (7%float, 9%float),
     Sample.browser).
Proof.
  exact (proj1 (proj2 (sync_gated_on_username SpecModelled.controls))
           Sample.state (CollectionFilters.SET_RATINGS (7%float, 9%float))
           Sample.browser eq_refl).
Defined.

(** C9 does not hold of the code. With a username, every dispatch pushes
    an entry onto the history, and the player-count slider dispatches on
    every change of its value, not only on the committed one: the history
    grows by one entry for each value the slider passes through. *)
Theorem slider_change_pushes_history :
  forall (controls : CollectionFilters.Controls)
         (state : CollectionFilterState) (values : list Range) (b : Browser),
    (forall s v,
        username (CollectionFilters.playerCount_getReducedState controls s v)
        = username s) ->
    username state <> EmptyString ->
    List.length
      (history
         (snd (CollectionFilters.dispatchAll controls state
                 (map CollectionFilters.PlayerCountSlider_onChange values) b)))
    = (List.length (history b) + List.length values)%nat.
Proof.
  intros controls state values b Hkeep. revert state b.
  induction values as [|v values IH]; intros state b Hname; cbn.
  - lia.
  - unfold CollectionFilters.reducer. cbn [CollectionFilters.actions].
    rewrite IH by (rewrite Hkeep; exact Hname).
    rewrite ReducerFacts.maybeSetQueryParam_named
      by (rewrite Hkeep; exact Hname).
    lia.
Qed.

(** A drag through three values by the user ["bob"] leaves three new
    entries in the history. *)
Lemma slider_change_pushes_history_witness :
  List.length
    (history
       (snd (CollectionFilters.dispatchAll SpecModelled.controls Sample.named
               (map CollectionFilters.PlayerCountSlider_onChange Sample.drag)
               Sample.browser)))
  = (List.length (history Sample.browser) + 3)%nat.
Proof.
  refine (slider_change_pushes_history SpecModelled.controls Sample.named
            Sample.drag Sample.browser _ _).
  - intros s v. reflexivity.
  - discriminate.
Defined.

(** * Further properties of the code *)

(** ** More on the order of binary64 numbers *)

Module FloatOrderFacts.

Lemma SFleb_antisym x y :
  SFleb x y = true -> SFleb y x = true -> SFeqb x y = true.
Proof.
  unfold SFleb, SFeqb. rewrite (FloatFacts.SFcompare_antisym x y).
  destruct (SFcompare x y) as [[]|]; simpl; congruence.
Qed.

Lemma leb_antisym a b :
  PrimFloat.leb a b = true -> PrimFloat.leb b a = true ->
  PrimFloat.eqb a b = true.
Proof. rewrite !leb_spec, eqb_spec. apply SFleb_antisym. Qed.

Lemma eqb_leb a b : PrimFloat.eqb a b = true -> PrimFloat.leb a b = true.
Proof.
  rewrite leb_spec, eqb_spec. unfold SFleb, SFeqb.
  destruct (SFcompare _ _) as [[]|]; congruence.
Qed.

Lemma leb_refl a : PrimFloat.is_nan a = false -> PrimFloat.leb a a = true.
Proof.
  intros H. apply eqb_leb. unfold PrimFloat.is_nan in H.
  apply negb_false_iff in H. exact H.
Qed.

Lemma ltb_irrefl a : PrimFloat.ltb a a = false.
Proof.
  rewrite ltb_spec. unfold SFltb.
  destruct (Prim2SF a) as [s|s| |s m e] eqn:E; try reflexivity;
    rewrite FloatFacts.SFcompare_refl by discriminate; reflexivity.
Qed.

(** Every number other than [NaN] is at most [+oo]. *)
Lemma leb_infinity a :
  PrimFloat.is_nan a = false -> PrimFloat.leb a PrimFloat.infinity = true.
Proof.
  intros H. apply FloatFacts.is_nan_false in H. rewrite leb_spec.
  change (Prim2SF PrimFloat.infinity) with (S754_infinity false).
  destruct (Prim2SF a) as [s|s| |s m e]; try congruence;
    try destruct s; reflexivity.
Qed.

End FloatOrderFacts.

(** ** The decoder of the ratings range, further *)

Module DecoderFacts.

Import RatingsService.

(** [_.clamp] into the ratings domain keeps the order of two numbers. *)
Lemma clamp_monotone x y :
  Js.le x y = true ->
  Js.le (Js.clamp x DEFAULT_RATINGS_MIN DEFAULT_RATINGS_MAX)
    (Js.clamp y DEFAULT_RATINGS_MIN DEFAULT_RATINGS_MAX) = true.
Proof.
  unfold Js.le. intros Hxy.
  destruct (FloatFacts.leb_not_nan _ _ Hxy) as [Hx Hy].
  pose proof (RatingsFacts.clamp_in_domain y Hy) as Hdy.
  unfold in_ratings_domain, Js.le in Hdy.
  apply andb_true_iff in Hdy as [Hy1 Hy10].
  unfold Js.clamp, Js.strict_eq, Js.le, Js.ge in *.
  unfold PrimFloat.is_nan in Hx, Hy.
  apply negb_false_iff in Hx. apply negb_false_iff in Hy.
  rewrite Hx, Hy in *.
  destruct (PrimFloat.leb x DEFAULT_RATINGS_MAX) eqn:Hx10.
  - destruct (PrimFloat.leb DEFAULT_RATINGS_MIN x) eqn:Hx1.
    + destruct (PrimFloat.leb y DEFAULT_RATINGS_MAX) eqn:Hy10'.
      * rewrite (FloatFacts.leb_trans _ _ _ Hx1 Hxy). exact Hxy.
      * cbn. exact Hx10.
    + exact Hy1.
  - cbn.
    destruct (PrimFloat.leb y DEFAULT_RATINGS_MAX) eqn:Hy10'.
    + rewrite (FloatFacts.leb_trans _ _ _ Hxy Hy10') in Hx10. discriminate.
    + reflexivity.
Qed.

Lemma in_domain_le_self x :
  in_ratings_domain x = true -> Js.le x x = true.
Proof.
  unfold in_ratings_domain, Js.le. intros H.
  apply andb_true_iff in H as [H _].
  apply FloatOrderFacts.leb_refl.
  exact (proj2 (FloatFacts.leb_not_nan _ _ H)).
Qed.

Lemma invariant_of_bounds lo hi :
  Js.le lo hi = true -> in_ratings_domain lo = true ->
  in_ratings_domain hi = true -> ratings_invariant (lo, hi) = true.
Proof.
  unfold ratings_invariant. cbn [fst snd]. intros -> -> ->. reflexivity.
Qed.

End DecoderFacts.

(** X1. Only the first two pieces of a persisted ratings value count:
    whatever follows a second ["-"] is ignored by the decoder. *)
Theorem ratings_decode_ignores_later_pieces :
  forall a b rest : string,
    Js.includes "-" a = false -> Js.includes "-" b = false ->
    convertRangeQueryParamToValue
      (Some (a ++ "-" ++ b ++ "-" ++ rest)%string)
    = convertRangeQueryParamToValue (Some (a ++ "-" ++ b)%string).
Proof.
  intros a b rest Ha Hb.
  change (a ++ "-" ++ b)%string with (a ++ String "-" b)%string.
  rewrite (RatingsFacts.convert_range a b Ha Hb).
  change (a ++ "-" ++ b ++ "-" ++ rest)%string
    with (a ++ String "-" (b ++ String "-" rest))%string.
  unfold convertRangeQueryParamToValue.
  destruct (a ++ String "-" (b ++ String "-" rest))%string eqn:E.
  - destruct a; discriminate E.
  - rewrite <- E.
    rewrite includes_separator, (split_at_separator _ _ _ Ha),
      (split_at_separator _ _ _ Hb).
    reflexivity.
Qed.

(** ["7-9-3"] decodes as ["7-9"] does. *)
Lemma ratings_decode_ignores_later_pieces_witness :
  convertRangeQueryParamToValue (Some "7-9-3"%string)
  = convertRangeQueryParamToValue (Some "7-9"%string).
Proof.
  exact (ratings_decode_ignores_later_pieces "7" "9" "3" eq_refl eq_refl).
Defined.

(** X2. A leading minus sign is read as the separator, never as the sign
    of a number: ["-n"] decodes to the default minimum [1] and to [n]
    clamped as the maximum (the default maximum when [n] is not a
    number). *)
Theorem ratings_decode_leading_minus :
  forall b : string,
    Js.includes "-" b = false ->
    convertRangeQueryParamToValue (Some ("-" ++ b)%string)
    = (1%float,
       if Js.isNaN (Js.parseFloat b) then 10%float
       else Js.clamp (Js.parseFloat b) 1%float 10%float).
Proof.
  intros b Hb.
  change ("-" ++ b)%string with (EmptyString ++ String "-" b)%string.
  rewrite (RatingsFacts.convert_range EmptyString b eq_refl Hb).
  reflexivity.
Qed.

(** ["-5"] decodes to [[1, 5]]. *)
Lemma ratings_decode_leading_minus_witness :
  convertRangeQueryParamToValue (Some "-5"%string) = (1%float, 5%float).
Proof. exact (ratings_decode_leading_minus "5" eq_refl). Defined.

(** X3. When the decoded ratings range satisfies the invariant of the
    filter state ([min <= max], both in [[1, 10]]): always for a missing
    value and for a value without ["-"]; for ["a-b"] as soon as one part is
    not a number or the two numbers are in order. *)
Theorem ratings_decode_invariant :
  ratings_invariant (convertRangeQueryParamToValue None) = true
  /\ (forall s : string,
        Js.includes "-" s = false ->
        ratings_invariant (convertRangeQueryParamToValue (Some s)) = true)
  /\ (forall a b : string,
        Js.includes "-" a = false -> Js.includes "-" b = false ->
        Js.isNaN (Js.parseFloat a) = true
        \/ Js.isNaN (Js.parseFloat b) = true
        \/ Js.le (Js.parseFloat a) (Js.parseFloat b) = true ->
        ratings_invariant
          (convertRangeQueryParamToValue (Some (a ++ "-" ++ b)%string))
        = true).
Proof.
  split; [reflexivity|]. split.
  - intros s Hs. destruct s as [|c r] eqn:E; [reflexivity|]. rewrite <- E in *.
    rewrite (RatingsFacts.convert_bare s) by (subst; discriminate || exact Hs).
    unfold decodedBound.
    destruct (Js.isNaN (Js.parseFloat s)) eqn:Hn; [reflexivity|].
    pose proof (RatingsFacts.clamp_in_domain _ Hn) as Hd.
    apply DecoderFacts.invariant_of_bounds; try exact Hd.
    apply DecoderFacts.in_domain_le_self. exact Hd.
  - intros a b Ha Hb H.
    change (a ++ "-" ++ b)%string with (a ++ String "-" b)%string.
    rewrite (RatingsFacts.convert_range a b Ha Hb).
    pose proof (RatingsFacts.decodedBound_in_domain
                  DEFAULT_RATINGS_MIN a eq_refl) as Hlo.
    pose proof (RatingsFacts.decodedBound_in_domain
                  DEFAULT_RATINGS_MAX b eq_refl) as Hhi.
    apply DecoderFacts.invariant_of_bounds; try assumption.
    unfold decodedBound in *.
    destruct (Js.isNaN (Js.parseFloat a)) eqn:Hna.
    + unfold in_ratings_domain in Hhi.
      apply andb_true_iff in Hhi as [Hhi _]. exact Hhi.
    + destruct (Js.isNaN (Js.parseFloat b)) eqn:Hnb.
      * unfold in_ratings_domain in Hlo.
        apply andb_true_iff in Hlo as [_ Hlo]. exact Hlo.
      * destruct H as [H|[H|H]]; try discriminate H.
        apply DecoderFacts.clamp_monotone. exact H.
Qed.

(** ["7-"] has no maximum: it decodes to [[7, 10]], which satisfies the
    invariant. *)
Lemma ratings_decode_invariant_witness :
  ratings_invariant (convertRangeQueryParamToValue (Some "7-"%string)) = true.
Proof.
  exact (proj2 (proj2 ratings_decode_invariant) "7"%string EmptyString
           eq_refl eq_refl (or_intror (or_introl eq_refl))).
Defined.

(** X4. Successive updates of the ratings range compose as one: the later
    payload wins, and setting the range that the state already has gives
    the state back. *)
Theorem ratings_getReducedState_composes :
  (forall (state : CollectionFilterState) (first second : Range),
      getReducedState (getReducedState state first) second
      = getReducedState state second)
  /\ (forall state : CollectionFilterState,
        getReducedState state (ratingsRange state) = state).
Proof.
  split.
  - intros state [a b] [c d]. reflexivity.
  - intros state. destruct state as [u si pc pt cx se sr [lo hi] sn d].
    reflexivity.
Qed.

(** X5. The label of the ratings slider names the rating that the filter
    compares: in every state either the label is ["Filter by User
    Ratings"] and [isWithinRange] depends on the game through its user
    rating only, or the label is ["Filter by Average Ratings"] and
    [isWithinRange] depends on the game through its average rating
    only. *)
Theorem ratings_label_names_compared_rating :
  forall state : CollectionFilterState,
    (getSliderLabel state = "Filter by User Ratings"%string
     /\ getAriaLabel state 0%float = "Minimum User Ratings"%string
     /\ forall (R : Type) (g g' : Game R),
          userRating g = userRating g' ->
          isWithinRange state g = isWithinRange state g')
    \/ (getSliderLabel state = "Filter by Average Ratings"%string
        /\ getAriaLabel state 0%float = "Minimum Average Ratings"%string
        /\ forall (R : Type) (g g' : Game R),
             averageRating g = averageRating g' ->
             isWithinRange state g = isWithinRange state g').
Proof.
  intros state. unfold getSliderLabel, getAriaLabel, getLabelByFilter,
    isWithinRange.
  destruct (showRatings state); cbn [ShowRatings_eqb].
  - right. repeat split. intros R g g' ->. reflexivity.
  - right. repeat split. intros R g g' ->. reflexivity.
  - left. repeat split. intros R g g' ->. reflexivity.
Qed.

(** A game in average-rating mode passes or fails with any game of the
    same average rating. *)
Lemma ratings_label_names_compared_rating_witness :
  isWithinRange Sample.state Sample.azul
  = isWithinRange Sample.state
      (Sample.game 9 "Other" 1%float 2%float 7.5%float []).
Proof.
  destruct (ratings_label_names_compared_rating Sample.state)
    as [(H & _)|(_ & _ & H)].
  - discriminate H.
  - apply H. reflexivity.
Defined.

(** ** The pipeline, stage by stage *)

Module StageFacts.

Import CollectionFilters.

Lemma projection_fields state (game : SimpleBoardGame) :
  itemFields (maybeShowInvalidPlayerCount state game) = itemFields game.
Proof.
  unfold maybeShowInvalidPlayerCount.
  destruct (showInvalidPlayerCount state); reflexivity.
Qed.

Lemma annotation_fields state (game : SimpleBoardGame) :
  itemFields (addIsPlayerCountWithinRange state game) = itemFields game.
Proof.
  unfold addIsPlayerCountWithinRange.
  destruct (playerCountRange state). reflexivity.
Qed.

Lemma annotation_entries state (game : SimpleBoardGame) :
  recommendedPlayerCount (addIsPlayerCountWithinRange state game)
  = map (fun rec =>
           {| entry := rec;
              isPlayerCountWithinRange :=
                inPlayerCountRange state (playerCountValue rec) |})
      (recommendedPlayerCount game).
Proof.
  unfold addIsPlayerCountWithinRange, inPlayerCountRange.
  destruct (playerCountRange state). reflexivity.
Qed.

Lemma projection_entries state (game : SimpleBoardGame) rec :
  In rec (recommendedPlayerCount (maybeShowInvalidPlayerCount state game))
  <-> In rec (recommendedPlayerCount game)
      /\ (showInvalidPlayerCount state = true
          \/ (Js.le (minPlayers game) (playerCountValue rec) = true
              /\ Js.le (playerCountValue rec) (maxPlayers game) = true)).
Proof.
  unfold maybeShowInvalidPlayerCount.
  destruct (showInvalidPlayerCount state).
  - tauto.
  - cbn [recommendedPlayerCount with_recommendedPlayerCount].
    rewrite !filter_In. unfold removeRecsMoreThan, removeRecsLessThan, Js.ge.
    intuition congruence.
Qed.

(** What it takes to be in the result of the chain. *)
Lemma result_membership pc pt cx lc state games (b : BoardGame) :
  In b (array_sort (maybeSortByScore lc state)
          (filter (maybeShowNotRecommended state)
             (annotatedStage pc pt cx state games)))
  <-> exists g : SimpleBoardGame,
        In g games
        /\ maybeShowExpansions state g = true
        /\ pc state (maybeShowInvalidPlayerCount state g) = true
        /\ pt state (maybeShowInvalidPlayerCount state g) = true
        /\ cx state (maybeShowInvalidPlayerCount state g) = true
        /\ RatingsService.isWithinRange state
             (maybeShowInvalidPlayerCount state g) = true
        /\ b = addIsPlayerCountWithinRange state
                 (maybeShowInvalidPlayerCount state g)
        /\ maybeShowNotRecommended state b = true.
Proof.
  rewrite array_sort_In, filter_In. unfold annotatedStage, criteriaStages.
  rewrite in_map_iff. split.
  - intros [(p & <- & Hp) Hnr].
    rewrite !filter_In, in_map_iff in Hp.
    destruct Hp as (((((g & <- & Hg) & Hpc) & Hpt) & Hcx) & Hr).
    apply filter_In in Hg as [Hg He]. exists g. tauto.
  - intros (g & Hg & He & Hpc & Hpt & Hcx & Hr & -> & Hnr).
    split; [|exact Hnr].
    exists (maybeShowInvalidPlayerCount state g). split; [reflexivity|].
    rewrite !filter_In, in_map_iff. repeat split; try assumption.
    exists g. split; [reflexivity|]. apply filter_In. tauto.
Qed.

End StageFacts.

(** X6. What the chain returns: an item is in the result exactly when it
    is the annotation of the invalid-range projection of a game of the
    collection that passes the expansion test, whose projection passes the
    four range tests, and that, once annotated, passes the not-recommended
    test. The range tests see the projected game, not the original. *)
Theorem apply_membership :
  forall (pc pt cx : CollectionFilterState -> SimpleBoardGame -> bool)
         (localeCompare : string -> string -> Js.number)
         (state : CollectionFilterState) (games : list SimpleBoardGame),
  exists out,
    fst (CollectionFilters.applyFiltersAndSorts pc pt cx localeCompare
           state (Some games)) = Some out
    /\ forall b : BoardGame,
         In b out
         <-> exists g : SimpleBoardGame,
               In g games
               /\ CollectionFilters.maybeShowExpansions state g = true
               /\ pc state
                    (CollectionFilters.maybeShowInvalidPlayerCount state g)
                  = true
               /\ pt state
                    (CollectionFilters.maybeShowInvalidPlayerCount state g)
                  = true
               /\ cx state
                    (CollectionFilters.maybeShowInvalidPlayerCount state g)
                  = true
               /\ RatingsService.isWithinRange state
                    (CollectionFilters.maybeShowInvalidPlayerCount state g)
                  = true
               /\ b = CollectionFilters.addIsPlayerCountWithinRange state
                        (CollectionFilters.maybeShowInvalidPlayerCount
                           state g)
               /\ CollectionFilters.maybeShowNotRecommended state b = true.
Proof.
  intros pc pt cx lc state games. rewrite PipelineFacts.apply_result.
  eexists. split; [reflexivity|]. intros b.
  apply StageFacts.result_membership.
Qed.

(** X7. With [showExpansions] off, nothing but base games comes out: the
    type of every item of the result is ["boardgame"], whatever the other
    criteria say. *)
Theorem apply_excludes_expansions :
  forall (pc pt cx : CollectionFilterState -> SimpleBoardGame -> bool)
         (localeCompare : string -> string -> Js.number)
         (state : CollectionFilterState) (games : list SimpleBoardGame),
  exists out,
    fst (CollectionFilters.applyFiltersAndSorts pc pt cx localeCompare
           state (Some games)) = Some out
    /\ (showExpansions state = false ->
        forall b : BoardGame, In b out -> type b = "boardgame"%string).
Proof.
  intros pc pt cx lc state games. rewrite PipelineFacts.apply_result.
  eexists. split; [reflexivity|]. intros Hflag b Hb.
  apply StageFacts.result_membership in Hb
    as (g & _ & He & _ & _ & _ & _ & -> & _).
  unfold CollectionFilters.maybeShowExpansions in He. rewrite Hflag in He.
  apply String.eqb_eq in He.
  pose proof (StageFacts.annotation_fields state
                (CollectionFilters.maybeShowInvalidPlayerCount state g)) as Ha.
  pose proof (StageFacts.projection_fields state g) as Hp.
  unfold itemFields in Ha, Hp. congruence.
Qed.

(** The sample collection with an expansion added, at the default state:
    only base games come out. *)
Lemma apply_excludes_expansions_witness :
  exists out,
    fst (SpecModelled.applyFiltersAndSorts SpecModelled.codeUnitCompare
           Sample.state (Some (Sample.expansion :: Sample.games))) = Some out
    /\ forall b : BoardGame, In b out -> type b = "boardgame"%string.
Proof.
  destruct (apply_excludes_expansions
              SpecModelled.playerCount_isWithinRange
              SpecModelled.playtime_isWithinRange
              SpecModelled.complexity_isWithinRange
              SpecModelled.codeUnitCompare Sample.state
              (Sample.expansion :: Sample.games)) as (out & Hout & H).
  exists out. split; [exact Hout|]. exact (H eq_refl).
Defined.

(** X8. With [showInvalidPlayerCount] off, every poll entry that comes out
    is for a player count the game supports: its [playerCountValue] lies
    within [[minPlayers, maxPlayers]] of its game. *)
Theorem apply_keeps_valid_player_counts :
  forall (pc pt cx : CollectionFilterState -> SimpleBoardGame -> bool)
         (localeCompare : string -> string -> Js.number)
         (state : CollectionFilterState) (games : list SimpleBoardGame),
  exists out,
    fst (CollectionFilters.applyFiltersAndSorts pc pt cx localeCompare
           state (Some games)) = Some out
    /\ (showInvalidPlayerCount state = false ->
        forall (b : BoardGame) (rec : AnnotatedPollEntry),
          In b out -> In rec (recommendedPlayerCount b) ->
          Js.le (minPlayers b) (playerCountValue rec) = true
          /\ Js.le (playerCountValue rec) (maxPlayers b) = true).
Proof.
  intros pc pt cx lc state games. rewrite PipelineFacts.apply_result.
  eexists. split; [reflexivity|]. intros Hflag b rec Hb Hrec.
  apply StageFacts.result_membership in Hb
    as (g & _ & _ & _ & _ & _ & _ & -> & _).
  rewrite StageFacts.annotation_entries in Hrec.
  apply in_map_iff in Hrec as (r & <- & Hr). cbn [entry].
  apply StageFacts.projection_entries in Hr as [_ [Hr|Hr]]; [congruence|].
  pose proof (StageFacts.annotation_fields state
                (CollectionFilters.maybeShowInvalidPlayerCount state g)) as Ha.
  pose proof (StageFacts.projection_fields state g) as Hp.
  unfold itemFields in Ha, Hp.
  replace (minPlayers (CollectionFilters.addIsPlayerCountWithinRange state
             (CollectionFilters.maybeShowInvalidPlayerCount state g)))
    with (minPlayers g) by congruence.
  replace (maxPlayers (CollectionFilters.addIsPlayerCountWithinRange state
             (CollectionFilters.maybeShowInvalidPlayerCount state g)))
    with (maxPlayers g) by congruence.
  exact Hr.
Qed.

(** [Duel] is a game for two players polled for one, two and three; at
    the default state only its entry for two players comes out with it. *)
Lemma apply_keeps_valid_player_counts_witness :
  exists out,
    fst (SpecModelled.applyFiltersAndSorts SpecModelled.codeUnitCompare
           Sample.state (Some (Sample.duel :: Sample.games))) = Some out
    /\ forall (b : BoardGame) (rec : AnnotatedPollEntry),
         In b out -> In rec (recommendedPlayerCount b) ->
         Js.le (minPlayers b) (playerCountValue rec) = true
         /\ Js.le (playerCountValue rec) (maxPlayers b) = true.
Proof.
  destruct (apply_keeps_valid_player_counts
              SpecModelled.playerCount_isWithinRange
              SpecModelled.playtime_isWithinRange
              SpecModelled.complexity_isWithinRange
              SpecModelled.codeUnitCompare Sample.state
              (Sample.duel :: Sample.games)) as (out & Hout & H).
  exists out. split; [exact Hout|]. exact (H eq_refl).
Defined.

(** X9. Every poll entry that comes out carries the right flag:
    [isPlayerCountWithinRange] is true exactly when its [playerCountValue]
    lies in the player-count range of the state. *)
Theorem apply_flags_entries_in_range :
  forall (pc pt cx : CollectionFilterState -> SimpleBoardGame -> bool)
         (localeCompare : string -> string -> Js.number)
         (state : CollectionFilterState) (games : list SimpleBoardGame),
  exists out,
    fst (CollectionFilters.applyFiltersAndSorts pc pt cx localeCompare
           state (Some games)) = Some out
    /\ forall (b : BoardGame) (rec : AnnotatedPollEntry),
         In b out -> In rec (recommendedPlayerCount b) ->
         isPlayerCountWithinRange rec
         = inPlayerCountRange state (playerCountValue rec).
Proof.
  intros pc pt cx lc state games. rewrite PipelineFacts.apply_result.
  eexists. split; [reflexivity|]. intros b rec Hb Hrec.
  apply StageFacts.result_membership in Hb
    as (g & _ & _ & _ & _ & _ & _ & -> & _).
  rewrite StageFacts.annotation_entries in Hrec.
  apply in_map_iff in Hrec as (r & <- & Hr). reflexivity.
Qed.

(** X10. The chain invents nothing: the result is no longer than the
    collection, and every item of it has the fields of a game of the
    collection (id, name, type, thumbnail, player counts, playtimes,
    weight and ratings) and poll entries taken from that game. *)
Theorem apply_invents_nothing :
  forall (pc pt cx : CollectionFilterState -> SimpleBoardGame -> bool)
         (localeCompare : string -> string -> Js.number)
         (state : CollectionFilterState) (games : list SimpleBoardGame),
  exists out,
    fst (CollectionFilters.applyFiltersAndSorts pc pt cx localeCompare
           state (Some games)) = Some out
    /\ (List.length out <= List.length games)%nat
    /\ forall b : BoardGame,
         In b out ->
         exists g : SimpleBoardGame,
           In g games
           /\ itemFields b = itemFields g
           /\ forall rec : AnnotatedPollEntry,
                In rec (recommendedPlayerCount b) ->
                In (entry rec) (recommendedPlayerCount g).
Proof.
  intros pc pt cx lc state games. rewrite PipelineFacts.apply_result.
  eexists. split; [reflexivity|]. split.
  - rewrite (Permutation_length (array_sort_perm _ _)).
    unfold CollectionFilters.annotatedStage, CollectionFilters.criteriaStages.
    repeat (first [ rewrite length_map
                  | eapply Nat.le_trans; [apply filter_length_le|] ]).
    apply Nat.le_refl.
  - intros b Hb.
    apply StageFacts.result_membership in Hb
      as (g & Hg & _ & _ & _ & _ & _ & -> & _).
    exists g. split; [exact Hg|]. split.
    + rewrite StageFacts.annotation_fields. apply StageFacts.projection_fields.
    + intros rec Hrec. rewrite StageFacts.annotation_entries in Hrec.
      apply in_map_iff in Hrec as (r & <- & Hr). cbn [entry].
      apply StageFacts.projection_entries in Hr. tauto.
Qed.

(** ** The debug output *)

Module ConsoleFacts.

Import CollectionFilters.

Lemma snd_bind {X Y : Type} (m : Logged X) (f : X -> Logged Y) :
  snd (bind m f) = snd m ++ snd (f (fst m)).
Proof. unfold bind. destruct m as [x out]. simpl. destruct (f x). reflexivity. Qed.

(** Past the first element the tap writes nothing. *)
Lemma tap_silent_from {R : Type} filterState groupLabel
  (array : list (Game R)) :
  forall rest index,
    snd (array_map_from (maybeOutputList filterState groupLabel)
           array (S index) rest) = [].
Proof.
  induction rest as [|x rest IH]; intros index; cbn [array_map_from];
    [reflexivity|].
  rewrite snd_bind. cbn [maybeOutputList fst snd Nat.eqb].
  rewrite andb_false_r, snd_bind, IH. reflexivity.
Qed.

Lemma tap_output {R : Type} filterState groupLabel (array : list (Game R)) :
  snd (array_map (maybeOutputList filterState groupLabel) array)
  = if isDebug filterState
    then match array with
         | [] => []
         | _ :: _ => [(groupLabel, tableRows array)]
         end
    else [].
Proof.
  unfold array_map. destruct array as [|x rest]; cbn [array_map_from].
  - destruct (isDebug filterState); reflexivity.
  - rewrite snd_bind. cbn [maybeOutputList fst snd Nat.eqb].
    rewrite andb_true_r, snd_bind, tap_silent_from.
    destruct (isDebug filterState); reflexivity.
Qed.

Lemma tap_quiet {R : Type} filterState groupLabel (array : list (Game R)) :
  isDebug filterState = false ->
  snd (array_map (maybeOutputList filterState groupLabel) array) = [].
Proof. intros H. rewrite tap_output, H. reflexivity. Qed.

End ConsoleFacts.

(** X11. Mapping [maybeOutputList] over the games of a stage hands the
    games on unchanged and writes to the console at most once: in debug
    mode, for a stage with at least one game, one group under the label of
    the stage with the id and name of every game of the stage; nothing for
    an empty stage, and nothing when debug mode is off. *)
Theorem maybeOutputList_logs_once_per_stage :
  forall (R : Type) (state : CollectionFilterState) (groupLabel : string)
         (array : list (Game R)),
    CollectionFilters.array_map
      (CollectionFilters.maybeOutputList state groupLabel) array
    = (array,
       if isDebug state
       then match array with
            | [] => []
            | _ :: _ => [(groupLabel, tableRows array)]
            end
       else []).
Proof.
  intros R state groupLabel array.
  rewrite (surjective_pairing
             (CollectionFilters.array_map
                (CollectionFilters.maybeOutputList state groupLabel) array)).
  rewrite PipelineFacts.tap, ConsoleFacts.tap_output. reflexivity.
Qed.

(** X12. With debug mode off the chain writes nothing to the console,
    whatever the collection. *)
Theorem apply_silent_without_debug :
  forall (pc pt cx : CollectionFilterState -> SimpleBoardGame -> bool)
         (localeCompare : string -> string -> Js.number)
         (state : CollectionFilterState)
         (games : option (list SimpleBoardGame)),
    isDebug state = false ->
    snd (CollectionFilters.applyFiltersAndSorts pc pt cx localeCompare
           state games) = [].
Proof.
  intros pc pt cx lc state [games|] H; [|reflexivity].
  unfold CollectionFilters.applyFiltersAndSorts.
  repeat (rewrite ConsoleFacts.snd_bind, (ConsoleFacts.tap_quiet _ _ _ H),
            PipelineFacts.tap; cbn [app]).
  reflexivity.
Qed.

(** The sample collection at the default state leaves the console
    empty. *)
Lemma apply_silent_without_debug_witness :
  snd (SpecModelled.applyFiltersAndSorts SpecModelled.codeUnitCompare
         Sample.state (Some Sample.games)) = [].
Proof.
  exact (apply_silent_without_debug
           SpecModelled.playerCount_isWithinRange
           SpecModelled.playtime_isWithinRange
           SpecModelled.complexity_isWithinRange
           SpecModelled.codeUnitCompare Sample.state (Some Sample.games)
           eq_refl).
Defined.

(** X13. Debug mode never changes what the chain returns: when the three
    range tests of the absent controls do not look at [isDebug], the
    result under a state is the result under the same state with
    [isDebug] set either way. *)
Theorem apply_result_ignores_debug :
  forall (pc pt cx : CollectionFilterState -> SimpleBoardGame -> bool)
         (localeCompare : string -> string -> Js.number)
         (state : CollectionFilterState) (debug : bool)
         (games : option (list SimpleBoardGame)),
    (forall g, pc (with_isDebug debug state) g = pc state g) ->
    (forall g, pt (with_isDebug debug state) g = pt state g) ->
    (forall g, cx (with_isDebug debug state) g = cx state g) ->
    fst (CollectionFilters.applyFiltersAndSorts pc pt cx localeCompare
           (with_isDebug debug state) games)
    = fst (CollectionFilters.applyFiltersAndSorts pc pt cx localeCompare
             state games).
Proof.
  intros pc pt cx lc state debug [games|] Hpc Hpt Hcx; [|reflexivity].
  rewrite !PipelineFacts.apply_result.
  unfold CollectionFilters.annotatedStage, CollectionFilters.criteriaStages.
  rewrite (filter_ext _ _ Hpc), (filter_ext _ _ Hpt), (filter_ext _ _ Hcx).
  reflexivity.
Qed.

(** The sample collection gives the same result with debug mode on. *)
Lemma apply_result_ignores_debug_witness :
  fst (SpecModelled.applyFiltersAndSorts SpecModelled.codeUnitCompare
         (with_isDebug true Sample.state) (Some Sample.games))
  = fst (SpecModelled.applyFiltersAndSorts SpecModelled.codeUnitCompare
           Sample.state (Some Sample.games)).
Proof.
  refine (apply_result_ignores_debug
            SpecModelled.playerCount_isWithinRange
            SpecModelled.playtime_isWithinRange
            SpecModelled.complexity_isWithinRange
            SpecModelled.codeUnitCompare Sample.state true
            (Some Sample.games) _ _ _);
    intros g; reflexivity.
Defined.

(** ** The sort stage, further *)

Module OrderFacts.

Import CollectionFilters.

Lemma Permutation_filter {A : Type} (f : A -> bool) (l l' : list A) :
  Permutation l l' -> Permutation (filter f l) (filter f l').
Proof.
  induction 1 as [|x l l' _ IH|x y l|l l' l'' _ IH1 _ IH2]; simpl.
  - constructor.
  - destruct (f x); [constructor|]; exact IH.
  - destruct (f x), (f y); try reflexivity. apply perm_swap.
  - exact (Permutation_trans IH1 IH2).
Qed.

(** The sort leaves alone a list in which no element compares positive
    against a later one. *)
Lemma array_sort_fixed {A : Type} (comparefn : A -> A -> Js.number) l :
  StronglySorted (fun a b => Js.gt (comparefn a b) 0%float = false) l ->
  array_sort comparefn l = l.
Proof.
  induction 1 as [|x l _ IH Hx]; simpl; [reflexivity|].
  rewrite IH. destruct l as [|y l]; [reflexivity|]. simpl.
  inversion Hx as [|? ? Hy _]; subst. rewrite Hy. reflexivity.
Qed.

Lemma StronglySorted_of_pairs {A : Type} (R : A -> A -> Prop) l :
  (forall a b, In a l -> In b l -> R a b) -> StronglySorted R l.
Proof.
  induction l as [|x l IH]; intros H; constructor.
  - apply IH. intros a b Ha Hb. apply H; right; assumption.
  - apply Forall_forall. intros b Hb. apply H; [left; reflexivity|right; exact Hb].
Qed.

(** A number minus itself is never positive. *)
Lemma sub_self_not_positive c :
  Js.gt (PrimFloat.sub c c) 0%float = false.
Proof.
  unfold Js.gt. destruct (PrimFloat.is_nan c) eqn:Hn.
  - rewrite ltb_spec, sub_spec.
    assert (E : Prim2SF c = S754_nan).
    { unfold PrimFloat.is_nan in Hn. apply negb_true_iff in Hn.
      rewrite eqb_spec in Hn. unfold SFeqb in Hn.
      destruct (Prim2SF c) as [s|s| |s m e] eqn:E; try reflexivity;
        rewrite FloatFacts.SFcompare_refl in Hn by discriminate;
        discriminate Hn. }
    rewrite E. reflexivity.
  - rewrite (FloatFacts.sub_positive c c Hn Hn).
    apply FloatOrderFacts.ltb_irrefl.
Qed.

(** The score of an annotated game is the sum over its flagged entries. *)
Lemma scoreSum_annotated state (game : SimpleBoardGame) :
  scoreSum state (addIsPlayerCountWithinRange state game)
  = fold_left (fun prev (curr : AnnotatedPollEntry) =>
                 PrimFloat.add (sortScore curr) prev)
      (filter isPlayerCountWithinRange
         (recommendedPlayerCount (addIsPlayerCountWithinRange state game)))
      0%float.
Proof.
  unfold scoreSum, calcSortScoreSum. f_equal.
  apply filter_ext_in. intros rec Hrec.
  rewrite StageFacts.annotation_entries in Hrec.
  apply in_map_iff in Hrec as (r & <- & _). reflexivity.
Qed.

End OrderFacts.

(** X14. The score by which an item is sorted is the total [sortScore] of
    the poll entries that the annotation flags for it: for every item of
    the result, the sum over the entries in the player-count range equals
    the sum over the entries with [isPlayerCountWithinRange]. *)
Theorem apply_score_is_flagged_total :
  forall (pc pt cx : CollectionFilterState -> SimpleBoardGame -> bool)
         (localeCompare : string -> string -> Js.number)
         (state : CollectionFilterState) (games : list SimpleBoardGame),
  exists out,
    fst (CollectionFilters.applyFiltersAndSorts pc pt cx localeCompare
           state (Some games)) = Some out
    /\ forall b : BoardGame,
         In b out ->
         scoreSum state b
         = fold_left (fun prev (curr : AnnotatedPollEntry) =>
                        PrimFloat.add (sortScore curr) prev)
             (filter isPlayerCountWithinRange (recommendedPlayerCount b))
             0%float.
Proof.
  intros pc pt cx lc state games. rewrite PipelineFacts.apply_result.
  eexists. split; [reflexivity|]. intros b Hb.
  apply StageFacts.result_membership in Hb
    as (g & _ & _ & _ & _ & _ & _ & -> & _).
  apply OrderFacts.scoreSum_annotated.
Qed.

(** X15. The sort is stable on ties. When no surviving item compares
    positive against a later one the result is the surviving items in the
    order of the collection; in particular, under a player-count range
    other than [[1, +oo)], when all surviving items have the same score
    sum the order of the collection is kept (it is not replaced by the
    order of the names). *)
Theorem apply_keeps_order_on_ties :
  forall (pc pt cx : CollectionFilterState -> SimpleBoardGame -> bool)
         (localeCompare : string -> string -> Js.number)
         (state : CollectionFilterState) (games : list SimpleBoardGame),
    let survivors :=
      filter (CollectionFilters.maybeShowNotRecommended state)
        (CollectionFilters.annotatedStage pc pt cx state games) in
    (StronglySorted
       (fun a b =>
          Js.gt (CollectionFilters.maybeSortByScore localeCompare state a b)
            0%float = false) survivors ->
     fst (CollectionFilters.applyFiltersAndSorts pc pt cx localeCompare
            state (Some games)) = Some survivors)
    /\ (isDefaultPlayerCountRange state = false ->
        (forall a b, In a survivors -> In b survivors ->
                     scoreSum state a = scoreSum state b) ->
        fst (CollectionFilters.applyFiltersAndSorts pc pt cx localeCompare
               state (Some games)) = Some survivors).
Proof.
  intros pc pt cx lc state games survivors.
  assert (Hfixed :
            StronglySorted
              (fun a b =>
                 Js.gt (CollectionFilters.maybeSortByScore lc state a b)
                   0%float = false) survivors ->
            fst (CollectionFilters.applyFiltersAndSorts pc pt cx lc
                   state (Some games)) = Some survivors).
  { intros H. rewrite PipelineFacts.apply_result. fold survivors.
    rewrite (OrderFacts.array_sort_fixed _ _ H). reflexivity. }
  split; [exact Hfixed|].
  intros Hrange Heq. apply Hfixed. apply OrderFacts.StronglySorted_of_pairs.
  intros a b Ha Hb.
  rewrite (SortStageFacts.maybeSortByScore_by_score lc state a b Hrange).
  rewrite (Heq a b Ha Hb). apply OrderFacts.sub_self_not_positive.
Qed.

(** Under the range [[7, 8]] no sample game has a poll entry in range, all
    scores are [0], and the games come out in the order of the collection:
    Catan, Azul, Brass. *)
Lemma apply_keeps_order_on_ties_witness :
  fst (CollectionFilters.applyFiltersAndSorts Sample.anyGame Sample.anyGame
         Sample.anyGame SpecModelled.codeUnitCompare Sample.seven
         (Some Sample.games))
  = Some (filter (CollectionFilters.maybeShowNotRecommended Sample.seven)
            (CollectionFilters.annotatedStage Sample.anyGame Sample.anyGame
               Sample.anyGame Sample.seven Sample.games)).
Proof.
  refine (proj2 (apply_keeps_order_on_ties Sample.anyGame Sample.anyGame
                   Sample.anyGame SpecModelled.codeUnitCompare Sample.seven
                   Sample.games) eq_refl _).
  intros a b Ha Hb. cbn in Ha, Hb.
  destruct Ha as [<-|[<-|[<-|[]]]]; destruct Hb as [<-|[<-|[<-|[]]]];
    reflexivity.
Defined.

(** X16. Which items come out does not depend on the order of the
    collection: on two collections that are permutations of each other the
    results are permutations of each other. *)
Theorem apply_of_permuted_collection :
  forall (pc pt cx : CollectionFilterState -> SimpleBoardGame -> bool)
         (localeCompare : string -> string -> Js.number)
         (state : CollectionFilterState) (games games' : list SimpleBoardGame),
    Permutation games games' ->
    exists out out',
      fst (CollectionFilters.applyFiltersAndSorts pc pt cx localeCompare
             state (Some games)) = Some out
      /\ fst (CollectionFilters.applyFiltersAndSorts pc pt cx localeCompare
                state (Some games')) = Some out'
      /\ Permutation out out'.
Proof.
  intros pc pt cx lc state games games' H.
  rewrite !PipelineFacts.apply_result. eexists. eexists.
  split; [reflexivity|]. split; [reflexivity|].
  rewrite !array_sort_perm.
  unfold CollectionFilters.annotatedStage, CollectionFilters.criteriaStages.
  repeat first [ apply OrderFacts.Permutation_filter
               | apply Permutation_map ].
  exact H.
Qed.

(** The sample collection and its reverse. *)
Lemma apply_of_permuted_collection_witness :
  exists out out',
    fst (SpecModelled.applyFiltersAndSorts SpecModelled.codeUnitCompare
           Sample.three (Some Sample.games)) = Some out
    /\ fst (SpecModelled.applyFiltersAndSorts SpecModelled.codeUnitCompare
              Sample.three (Some (rev Sample.games))) = Some out'
    /\ Permutation out out'.
Proof.
  exact (apply_of_permuted_collection
           SpecModelled.playerCount_isWithinRange
           SpecModelled.playtime_isWithinRange
           SpecModelled.complexity_isWithinRange
           SpecModelled.codeUnitCompare Sample.three
           Sample.games (rev Sample.games) (Permutation_rev Sample.games)).
Defined.

(** X17. Switching [showExpansions] or [showNotRecommended] on never
    removes an item: when the three range tests of the absent controls do
    not look at the flag, every item of the result stays in the result,
    unchanged, under the state with the flag set. *)
Theorem apply_show_flags_only_add :
  forall (pc pt cx : CollectionFilterState -> SimpleBoardGame -> bool)
         (localeCompare : string -> string -> Js.number)
         (state state' : CollectionFilterState)
         (games : list SimpleBoardGame),
    state' = with_showExpansions true state
    \/ state' = with_showNotRecommended true state ->
    (forall g, pc state' g = pc state g) ->
    (forall g, pt state' g = pt state g) ->
    (forall g, cx state' g = cx state g) ->
    exists out out',
      fst (CollectionFilters.applyFiltersAndSorts pc pt cx localeCompare
             state (Some games)) = Some out
      /\ fst (CollectionFilters.applyFiltersAndSorts pc pt cx localeCompare
                state' (Some games)) = Some out'
      /\ forall b : BoardGame, In b out -> In b out'.
Proof.
  intros pc pt cx lc state state' games Hs Hpc Hpt Hcx.
  rewrite !PipelineFacts.apply_result. eexists. eexists.
  split; [reflexivity|]. split; [reflexivity|].
  intros b Hb. apply StageFacts.result_membership in Hb
    as (g & Hg & He & Hpc' & Hpt' & Hcx' & Hr & -> & Hnr).
  apply StageFacts.result_membership. exists g.
  destruct Hs as [-> | ->].
  - repeat split; try assumption; try reflexivity.
    + rewrite Hpc. exact Hpc'.
    + rewrite Hpt. exact Hpt'.
    + rewrite Hcx. exact Hcx'.
  - repeat split; try assumption; try reflexivity.
    + rewrite Hpc. exact Hpc'.
    + rewrite Hpt. exact Hpt'.
    + rewrite Hcx. exact Hcx'.
Qed.

(** Showing expansions for the sample collection with an expansion. *)
Lemma apply_show_flags_only_add_witness :
  exists out out',
    fst (SpecModelled.applyFiltersAndSorts SpecModelled.codeUnitCompare
           Sample.state (Some (Sample.expansion :: Sample.games))) = Some out
    /\ fst (SpecModelled.applyFiltersAndSorts SpecModelled.codeUnitCompare
              (with_showExpansions true Sample.state)
              (Some (Sample.expansion :: Sample.games))) = Some out'
    /\ forall b : BoardGame, In b out -> In b out'.
Proof.
  refine (apply_show_flags_only_add
            SpecModelled.playerCount_isWithinRange
            SpecModelled.playtime_isWithinRange
            SpecModelled.complexity_isWithinRange
            SpecModelled.codeUnitCompare Sample.state
            (with_showExpansions true Sample.state)
            (Sample.expansion :: Sample.games) (or_introl eq_refl) _ _ _);
    intros g; reflexivity.
Defined.

(** ** The reducer and the history, further *)

(** X18. Over any sequence of dispatches the history only grows, at its
    end, by one entry for each dispatch whose new state has a username and
    by none for the others; and the state reached is the one the handlers
    give, whatever the page holds. *)
Theorem dispatch_history_growth :
  forall (controls : CollectionFilters.Controls)
         (acts : list CollectionFilters.Action)
         (state : CollectionFilterState) (b : Browser),
  exists pushed : list URLSearchParams,
    history (snd (CollectionFilters.dispatchAll controls state acts b))
    = history b ++ pushed
    /\ List.length pushed = namedSteps controls state acts
    /\ fst (CollectionFilters.dispatchAll controls state acts b)
       = fold_left (CollectionFilters.actions controls) acts state.
Proof.
  intros controls acts.
  induction acts as [|a acts IH]; intros state b; cbn.
  - exists []. rewrite app_nil_r. repeat split.
  - unfold CollectionFilters.reducer.
    set (state' := CollectionFilters.actions controls state a).
    destruct (IH state' (CollectionFilters.maybeSetQueryParam controls state' b))
      as (pushed & Hh & Hl & Hs).
    unfold CollectionFilters.maybeSetQueryParam in *.
    destruct (username state') eqn:Hu.
    + exists pushed. repeat split; assumption.
    + unfold pushState in Hh. cbn [history] in Hh.
      rewrite <- app_assoc in Hh. eexists. split; [exact Hh|].
      split; [cbn; rewrite Hl; reflexivity | exact Hs].
Qed.

(** ** The player-count slider *)

Module SliderFacts.

Import PlayerCountSlider.

Lemma convertElevenToInfinity_below value :
  Js.ge value 11%float = false -> convertElevenToInfinity value = value.
Proof. unfold convertElevenToInfinity. intros ->. reflexivity. Qed.

Lemma convertElevenToInfinity_above value :
  Js.ge value 11%float = true ->
  convertElevenToInfinity value = Js.POSITIVE_INFINITY.
Proof. unfold convertElevenToInfinity. intros ->. reflexivity. Qed.

End SliderFacts.

(** X19. The scale of the player-count slider, [convertElevenToInfinity]:
    scaling twice is scaling once; what comes out is below [11] or is
    [+oo], never a finite number from [11] on; and the scale keeps the
    order of two values, so that a range [[min, max]] of the slider stays a
    range. *)
Theorem convertElevenToInfinity_scale :
  (forall value,
      PlayerCountSlider.convertElevenToInfinity
        (PlayerCountSlider.convertElevenToInfinity value)
      = PlayerCountSlider.convertElevenToInfinity value)
  /\ (forall value,
        Js.ge (PlayerCountSlider.convertElevenToInfinity value) 11%float = true ->
        PlayerCountSlider.convertElevenToInfinity value = Js.POSITIVE_INFINITY)
  /\ (forall lo hi,
        Js.le lo hi = true ->
        Js.le (PlayerCountSlider.convertElevenToInfinity lo)
          (PlayerCountSlider.convertElevenToInfinity hi) = true).
Proof.
  repeat split.
  - intros value. destruct (Js.ge value 11%float) eqn:E.
    + rewrite (SliderFacts.convertElevenToInfinity_above value E). reflexivity.
    + rewrite !(SliderFacts.convertElevenToInfinity_below value E).
      reflexivity.
  - intros value H. destruct (Js.ge value 11%float) eqn:E.
    + apply SliderFacts.convertElevenToInfinity_above. exact E.
    + rewrite (SliderFacts.convertElevenToInfinity_below value E) in H.
      congruence.
  - intros lo hi H. unfold Js.le, Js.ge in *.
    destruct (FloatFacts.leb_not_nan _ _ H) as [Hlo Hhi].
    destruct (PrimFloat.leb 11%float lo) eqn:Elo.
    + rewrite (SliderFacts.convertElevenToInfinity_above lo Elo).
      rewrite (SliderFacts.convertElevenToInfinity_above hi
                 (FloatFacts.leb_trans _ _ _ Elo H)).
      reflexivity.
    + rewrite (SliderFacts.convertElevenToInfinity_below lo Elo).
      destruct (PrimFloat.leb 11%float hi) eqn:Ehi.
      * rewrite (SliderFacts.convertElevenToInfinity_above hi Ehi).
        apply FloatOrderFacts.leb_infinity. exact Hlo.
      * rewrite (SliderFacts.convertElevenToInfinity_below hi Ehi). exact H.
Qed.

(** The slider range [[2, 11]] scales to [[2, +oo)]. *)
Lemma convertElevenToInfinity_scale_witness :
  Js.le (PlayerCountSlider.convertElevenToInfinity 2%float)
    (PlayerCountSlider.convertElevenToInfinity 11%float) = true.
Proof.
  exact (proj2 (proj2 convertElevenToInfinity_scale) 2%float 11%float eq_refl).
Defined.

(** ** The poll entries, further *)

Module EntryFacts.

Lemma filter_all {A : Type} (f : A -> bool) (l : list A) :
  (forall x, In x l -> f x = true) -> filter f l = l.
Proof.
  induction l as [|x l IH]; intros H; simpl; [reflexivity|].
  rewrite (H x (or_introl eq_refl)), IH; [reflexivity|].
  intros y Hy. apply H. right. exact Hy.
Qed.

End EntryFacts.

(** X21. The invalid-range projection is idempotent: projecting a
    projected game changes nothing. *)
Theorem maybeShowInvalidPlayerCount_idempotent :
  forall (state : CollectionFilterState) (game : SimpleBoardGame),
    CollectionFilters.maybeShowInvalidPlayerCount state
      (CollectionFilters.maybeShowInvalidPlayerCount state game)
    = CollectionFilters.maybeShowInvalidPlayerCount state game.
Proof.
  intros state game. unfold CollectionFilters.maybeShowInvalidPlayerCount.
  destruct (showInvalidPlayerCount state); [reflexivity|].
  unfold with_recommendedPlayerCount at 1.
  cbn [id name type thumbnail minPlayers maxPlayers minPlaytime maxPlaytime
       averageWeight userRating averageRating recommendedPlayerCount
       with_recommendedPlayerCount].
  unfold with_recommendedPlayerCount. f_equal.
  set (kept := filter _ (filter _ (recommendedPlayerCount game))).
  rewrite (EntryFacts.filter_all
             (CollectionFilters.removeRecsLessThan (minPlayers game)) kept).
  - apply EntryFacts.filter_all. intros rec Hrec.
    apply filter_In in Hrec. tauto.
  - intros rec Hrec. apply filter_In in Hrec as [Hrec _].
    apply filter_In in Hrec. tauto.
Qed.

(** X22. With [showNotRecommended] and [showInvalidPlayerCount] both off,
    every item that comes out has a poll entry flagged as within the
    player-count range whose [NotRecommendedPercent] is at most [50] or is
    [NaN]; a game left without poll entries is therefore never shown. *)
Theorem apply_requires_a_recommended_entry :
  forall (pc pt cx : CollectionFilterState -> SimpleBoardGame -> bool)
         (localeCompare : string -> string -> Js.number)
         (state : CollectionFilterState) (games : list SimpleBoardGame),
  exists out,
    fst (CollectionFilters.applyFiltersAndSorts pc pt cx localeCompare
           state (Some games)) = Some out
    /\ (showNotRecommended state = false ->
        showInvalidPlayerCount state = false ->
        forall b : BoardGame,
          In b out ->
          recommendedPlayerCount b <> []
          /\ exists rec : AnnotatedPollEntry,
               In rec (recommendedPlayerCount b)
               /\ isPlayerCountWithinRange rec = true
               /\ (Js.le (NotRecommendedPercent rec) 50%float = true
                   \/ Js.isNaN (NotRecommendedPercent rec) = true)).
Proof.
  intros pc pt cx lc state games. rewrite PipelineFacts.apply_result.
  eexists. split; [reflexivity|]. intros Hnr Hinv b Hb.
  apply StageFacts.result_membership in Hb
    as (g & _ & _ & _ & _ & _ & _ & _ & Hpass).
  apply PipelineFacts.maybeShowNotRecommended_iff in Hpass
    as [H|[H|(rec & Hin & Hw & Hn)]]; try congruence.
  split.
  - intros E. rewrite E in Hin. destruct Hin.
  - exists rec. auto.
Qed.

(** At the default state the sample game without poll entries does not
    come out with the others. *)
Lemma apply_requires_a_recommended_entry_witness :
  exists out,
    fst (CollectionFilters.applyFiltersAndSorts Sample.anyGame Sample.anyGame
           Sample.anyGame SpecModelled.codeUnitCompare Sample.state
           (Some (Sample.unpolled :: Sample.games))) = Some out
    /\ forall b : BoardGame,
         In b out ->
         recommendedPlayerCount b <> []
         /\ exists rec : AnnotatedPollEntry,
              In rec (recommendedPlayerCount b)
              /\ isPlayerCountWithinRange rec = true
              /\ (Js.le (NotRecommendedPercent rec) 50%float = true
                  \/ Js.isNaN (NotRecommendedPercent rec) = true).
Proof.
  destruct (apply_requires_a_recommended_entry
              Sample.anyGame Sample.anyGame Sample.anyGame
              SpecModelled.codeUnitCompare Sample.state
              (Sample.unpolled :: Sample.games)) as (out & Hout & H).
  exists out. split; [exact Hout|]. exact (H eq_refl eq_refl).
Defined.
